(** * sqlite-mcp: the tool and resource dispatch layer over the SQLite wrapper

    A shallow embedding of
    - [internal/database/db.go]   (module [database]),
    - the tool dispatcher          (module [tools]),
    - [internal/resources/schema.go] (module [resources]),
    - [cmd/server/main.go]         (module [server]),
    followed by the properties of the dispatch layer and of its safety
    contract.

    Go strings are byte strings ([string]); a Go [map] is a [gmap]; a pair
    of results [(v, err)] is a pair whose second component is an
    [option error] ([None] is [nil]); a nil slice is the empty list; a
    pointer result is an [option].  The database handle is one shared
    store threaded through every operation. *)

From stdpp Require Import base option list strings gmap fin_maps pretty.

Set Warnings "-register-all,-clear-no-such-hyp".

(** ** Go values and errors *)

(** The dynamic values that travel in an [interface{}]: decoded JSON
    arguments on the way in, driver values on the way out.  No arithmetic
    is done on a [float64]: it is kept as the decimal text that
    [strconv.FormatFloat(f, 'f', -1, 64)] prints for it. *)
Inductive any : Type :=
| VNil
| VBool (b : bool)
| VInt64 (n : Z)
| VFloat64 (text : string)
| VString (s : string)
| VBytes (b : string)
| VSlice (l : list any)
| VMap (m : list (string * any)).

(** A Go [error], seen through its message. *)
Inductive error : Type :=
| errorString (msg : string).

Definition Error (e : error) : string :=
  match e with errorString msg => msg end.

(** [fmt.Errorf(prefix + ": %w", err)]: the message of the wrapped error
    follows the prefix. *)
Definition Errorf_w (prefix : string) (err : error) : error :=
  errorString (prefix +:+ Error err).

Definition newline : string := String (Ascii.ascii_of_nat 10) EmptyString.

(** ** Package [strings] *)

Module strings.

(** [strings.HasPrefix(s, prefix)] *)
Fixpoint HasPrefix (s prefix : string) {struct prefix} : bool :=
  match prefix with
  | EmptyString => true
  | String c prefix' =>
      match s with
      | EmptyString => false
      | String d s' => if Ascii.eqb c d then HasPrefix s' prefix' else false
      end
  end.

Fixpoint drop (n : nat) (s : string) : string :=
  match n with
  | O => s
  | S n' => match s with EmptyString => EmptyString | String _ s' => drop n' s' end
  end.

(** [strings.TrimPrefix(s, prefix)] *)
Definition TrimPrefix (s prefix : string) : string :=
  if HasPrefix s prefix then drop (String.length prefix) s else s.

(** [strings.Contains(s, substr)] *)
Fixpoint Contains (s substr : string) : bool :=
  HasPrefix s substr ||
  match s with
  | EmptyString => false
  | String _ s' => Contains s' substr
  end.

End strings.

(** ** The libraries the program calls *)

(** What the Go standard library and the third-party packages compute,
    where the program only calls them: Unicode case mapping and white
    space ([strings.ToUpper], [strings.TrimSpace]), the conversion of an
    arbitrary argument to a string ([cast.ToString], behind
    [mcp.ParseString]) and JSON encoding. *)
Inductive jsonable : Type :=
| JRows (rows : list (gmap string any))
| JStrings (l : list string)
| JTableInfo (table_name : string) (columns : list (gmap string any)).

Class GoLib : Type := {
  strings_ToUpper : string → string;
  strings_TrimSpace : string → string;
  cast_ToString : any → string;
  json_MarshalIndent : jsonable → string → string → string * option error
}.

(** [os.Stat] as far as [os.IsNotExist] looks at its error. *)
Inductive PathError : Type :=
| ErrNotExist
| ErrPermission
| ErrOther (msg : string).

Definition os_IsNotExist (err : option PathError) : bool :=
  match err with
  | Some ErrNotExist => true
  | _ => false
  end.

Class FileSystem : Type := {
  os_Stat : string → option PathError
}.

(** The cursor [*sql.Rows]: the column names, then what each
    [Next]/[Scan] round yields, then [rows.Err()].  Closing the cursor
    (the deferred [rows.Close()]) has no effect the program looks at. *)
Record Rows : Type := {
  Columns : list string * option error;
  scans : list (list any * option error);
  rows_Err : option error
}.

(** [sql.Result] *)
Record Result : Type := {
  RowsAffected : Z * option error
}.

(** [database/sql] with the SQLite driver: [conn] is the state of the
    database behind a [*sql.DB].  [sql.Open], [Query] and [Exec] give
    either a value or an error, never both and never neither. *)
Class Driver : Type := {
  conn : Type;
  sql_Open : string → string → conn + error;
  conn_Ping : conn → option error;
  conn_Close : conn → option error;
  conn_Query : conn → string → list any → (Rows + error) * conn;
  conn_Exec : conn → string → list any → (Result + error) * conn
}.

(** ** Package [database] *)

Module database.

(** InMemoryDB represents the SQLite in-memory database identifier *)
Definition InMemoryDB : string := ":memory:".

(** What [New] does to the outside, in order. *)
Inductive event : Type :=
| EvStat (path : string)
| EvPrintf (text : string)
| EvOpen (driverName dsn : string)
| EvPing
| EvClose.

(** A call that reached the driver through the handle. *)
Inductive call : Type :=
| CallQuery (query : string) (args : list any)
| CallExec (statement : string) (args : list any).

Definition Row : Type := gmap string any.

Section with_driver.
Context {drv : Driver} {fs : FileSystem}.

(** DB wraps a SQLite database connection with common operations *)
Record DB : Type := {
  db_conn : conn;
  path : string
}.

(** The database URI of [New] (the variable [dsn]). *)
Definition New_dsn (dbPath : string) (readOnly : bool) : string :=
  if decide (dbPath = InMemoryDB) then InMemoryDB
  else
    let dsn := "file:" +:+ dbPath in
    let dsn := if readOnly then dsn +:+ "?mode=ro" else dsn +:+ "?mode=rwc" in
    dsn +:+ "&_journal_mode=off&_temp_store=memory&_synchronous=off&_cache_size=-64000&_mmap_size=0".

(** The connecting half of [New], from [sql.Open] on. *)
Definition New_connect (dbPath dsn : string) : (option DB * option error) * list event :=
  match sql_Open "sqlite" dsn with
  | inr err =>
      ((None, Some (Errorf_w "failed to open database: " err)), [EvOpen "sqlite" dsn])
  | inl c =>
      match conn_Ping c with
      | Some err =>
          match conn_Close c with
          | Some err' =>
              ((None, Some (Errorf_w "failed to close database connection after ping error: " err')),
               [EvOpen "sqlite" dsn; EvPing; EvClose])
          | None =>
              ((None, Some (Errorf_w "failed to ping database: " err)),
               [EvOpen "sqlite" dsn; EvPing; EvClose])
          end
      | None =>
          ((Some {| db_conn := c; path := dbPath |}, None), [EvOpen "sqlite" dsn; EvPing])
      end
  end.

(** New creates a new database connection *)
Definition New (dbPath : string) (readOnly : bool) : (option DB * option error) * list event :=
  (* Check if database file exists (skip check for in-memory databases) *)
  let '(missing, stat) :=
    if bool_decide (dbPath ≠ InMemoryDB)
    then (os_IsNotExist (os_Stat dbPath), [EvStat dbPath])
    else (false, []) in
  if missing then
    ((None, Some (errorString ("database file does not exist: " +:+ dbPath))), stat)
  else
    let dsn := New_dsn dbPath readOnly in
    let '(r, evs) := New_connect dbPath dsn in
    (r, stat ++ [EvPrintf ("Connecting to database: " +:+ dsn +:+ newline)] ++ evs).

(** *** The shared handle *)

(** The state behind the one [*sql.DB] that the tools and the resources
    both hold, with the record of the calls that reached the driver. *)
Record Store : Type := {
  st_conn : conn;
  st_calls : list call
}.

Definition M (A : Type) : Type := Store → A * Store.

#[export] Instance M_ret : MRet M := λ A x st, (x, st).
#[export] Instance M_bind : MBind M := λ A B f m st, let '(x, st') := m st in f x st'.

(** [db.conn.Query(query, args...)] *)
Definition driver_Query (query : string) (args : list any) : M (Rows + error) :=
  λ st, let '(r, c) := conn_Query (st_conn st) query args in
        (r, {| st_conn := c; st_calls := st_calls st ++ [CallQuery query args] |}).

(** [db.conn.Exec(statement, args...)] *)
Definition driver_Exec (statement : string) (args : list any) : M (Result + error) :=
  λ st, let '(r, c) := conn_Exec (st_conn st) statement args in
        (r, {| st_conn := c; st_calls := st_calls st ++ [CallExec statement args] |}).

(** The body of the column loop of [Query]: [row[col]] is [values[i]],
    a [[]byte] turned into a string. *)
Fixpoint fill_row (columns : list string) (i : nat) (values : list any) (row : Row) : Row :=
  match columns with
  | [] => row
  | col :: columns' =>
      let val := default VNil (values !! i) in
      let cell := match val with VBytes b => VString b | _ => val end in
      fill_row columns' (S i) values (<[col := cell]> row)
  end.

(** The [for rows.Next()] loop of [Query]. *)
Fixpoint scan_rows (columns : list string) (pending : list (list any * option error))
    (results : list Row) : list Row * option error :=
  match pending with
  | [] => (results, None)
  | (_, Some err) :: _ => ([], Some (Errorf_w "failed to scan row: " err))
  | (values, None) :: pending' =>
      scan_rows columns pending' (results ++ [fill_row columns 0 values ∅])
  end.

(** Query executes a SELECT query and returns the results *)
Definition Query (query : string) (args : list any) : M (list Row * option error) :=
  r ← driver_Query query args;
  match r with
  | inr err => mret ([], Some (Errorf_w "query failed: " err))
  | inl rows =>
      match Columns rows with
      | (_, Some err) => mret ([], Some (Errorf_w "failed to get columns: " err))
      | (columns, None) =>
          match scan_rows columns (scans rows) [] with
          | (_, Some err) => mret ([], Some err)
          | (results, None) =>
              match rows_Err rows with
              | Some err => mret ([], Some (Errorf_w "row iteration error: " err))
              | None => mret (results, None)
              end
          end
      end
  end.

(** Execute runs an INSERT, UPDATE, or DELETE statement *)
Definition Execute (statement : string) (args : list any) : M (Z * option error) :=
  r ← driver_Exec statement args;
  match r with
  | inr err => mret (0%Z, Some (Errorf_w "execution failed: " err))
  | inl result =>
      match RowsAffected result with
      | (_, Some err) => mret (0%Z, Some (Errorf_w "failed to get rows affected: " err))
      | (rowsAffected, None) => mret (rowsAffected, None)
      end
  end.

(** GetTables returns a list of all tables in the database *)
Definition GetTables : M (list string * option error) :=
  let query := "SELECT name FROM sqlite_master WHERE type='table' AND name NOT LIKE 'sqlite_%' ORDER BY name" in
  r ← Query query [];
  match r with
  | (_, Some err) => mret ([], Some err)
  | (rows, None) =>
      mret (omap (λ row : Row, match row !! "name" with
                               | Some (VString name) => Some name
                               | _ => None
                               end) rows, None)
  end.

(** GetTableSchema returns the schema information for a specific table *)
Definition GetTableSchema (tableName : string) : M (list Row * option error) :=
  let query := "PRAGMA table_info(" +:+ tableName +:+ ")" in
  Query query [].

(** Path returns the database file path *)
Definition Path (db : DB) : string := path db.

End with_driver.

End database.

(** ** Package [mcp] (the protocol library), as far as the program uses it *)

Module mcp.

Inductive Content : Type :=
| TextContent (Text : string).

Record CallToolResult : Type := {
  Content_of : list Content;
  IsError : bool
}.

Record CallToolRequest : Type := {
  Name : string;
  Arguments : gmap string any
}.

Record ReadResourceRequest : Type := {
  URI : string
}.

Inductive ResourceContents : Type :=
| TextResourceContents (URI MIMEType Text : string).

(** One argument of a tool's input schema. *)
Record Property : Type := {
  prop_name : string;
  prop_type : string;
  prop_required : bool;
  prop_description : string
}.

Record Tool : Type := {
  tool_Name : string;
  tool_Description : string;
  tool_InputSchema : list Property
}.

Record Resource : Type := {
  res_URI : string;
  res_Name : string;
  res_Description : string;
  res_MIMEType : string
}.

Record ResourceTemplate : Type := {
  tmpl_URITemplate : string;
  tmpl_Name : string;
  tmpl_Description : string;
  tmpl_MIMEType : string
}.

Definition NewToolResultText (text : string) : CallToolResult :=
  {| Content_of := [TextContent text]; IsError := false |}.

Definition NewToolResultError (text : string) : CallToolResult :=
  {| Content_of := [TextContent text]; IsError := true |}.

(** The text is followed by [": "] and the error's message when the error
    is not nil. *)
Definition NewToolResultErrorFromErr (text : string) (err : option error) : CallToolResult :=
  let text := match err with
              | Some e => text +:+ ": " +:+ Error e
              | None => text
              end in
  {| Content_of := [TextContent text]; IsError := true |}.

Definition ParseArgument (request : CallToolRequest) (key : string) (defaultVal : any) : any :=
  match Arguments request !! key with
  | None => defaultVal
  | Some v => v
  end.

Definition ParseString {lib : GoLib} (request : CallToolRequest) (key defaultValue : string) : string :=
  cast_ToString (ParseArgument request key (VString defaultValue)).

End mcp.

(** ** Package [tools] *)

Module tools.

Import database.

Section with_env.
Context {lib : GoLib} {drv : Driver}.

(** executeQueryTool creates the execute_query tool for SELECT operations *)
Definition executeQueryTool : mcp.Tool :=
  {| mcp.tool_Name := "execute_query";
     mcp.tool_Description := "Execute a SELECT query against the SQLite database";
     mcp.tool_InputSchema :=
       [ {| mcp.prop_name := "query"; mcp.prop_type := "string"; mcp.prop_required := true;
            mcp.prop_description := "The SQL SELECT query to execute" |};
         {| mcp.prop_name := "parameters"; mcp.prop_type := "array"; mcp.prop_required := false;
            mcp.prop_description := "Optional parameters for the query" |} ] |}.

(** executeStatementTool creates the execute_statement tool for INSERT/UPDATE/DELETE operations *)
Definition executeStatementTool : mcp.Tool :=
  {| mcp.tool_Name := "execute_statement";
     mcp.tool_Description := "Execute an INSERT, UPDATE, or DELETE statement against the SQLite database";
     mcp.tool_InputSchema :=
       [ {| mcp.prop_name := "statement"; mcp.prop_type := "string"; mcp.prop_required := true;
            mcp.prop_description := "The SQL statement to execute" |};
         {| mcp.prop_name := "parameters"; mcp.prop_type := "array"; mcp.prop_required := false;
            mcp.prop_description := "Optional parameters for the statement" |} ] |}.

(** listTablesTool creates the list_tables tool *)
Definition listTablesTool : mcp.Tool :=
  {| mcp.tool_Name := "list_tables";
     mcp.tool_Description := "List all tables in the SQLite database";
     mcp.tool_InputSchema := [] |}.

(** describeTableTool creates the describe_table tool *)
Definition describeTableTool : mcp.Tool :=
  {| mcp.tool_Name := "describe_table";
     mcp.tool_Description := "Get the schema information for a specific table";
     mcp.tool_InputSchema :=
       [ {| mcp.prop_name := "table_name"; mcp.prop_type := "string"; mcp.prop_required := true;
            mcp.prop_description := "The name of the table to describe" |} ] |}.

(** GetTools returns all available MCP tools *)
Definition GetTools : list mcp.Tool :=
  [executeQueryTool; executeStatementTool; listTablesTool; describeTableTool].

(** The fence that opens and the fence that closes a JSON block in a
    result text. *)
Definition json_open : string := newline +:+ "```json" +:+ newline.
Definition json_close : string := newline +:+ "```".

(** handleExecuteQuery handles SELECT queries *)
Definition handleExecuteQuery (request : mcp.CallToolRequest)
    : M (option mcp.CallToolResult * option error) :=
  let query := mcp.ParseString request "query" "" in
  if decide (query = "") then
    mret (Some (mcp.NewToolResultError "query parameter is required"), None)
  else
    (* Validate that it's a SELECT query *)
    let trimmedQuery := strings_TrimSpace (strings_ToUpper query) in
    if negb (strings.HasPrefix trimmedQuery "SELECT") then
      mret (Some (mcp.NewToolResultError "only SELECT queries are allowed with execute_query"), None)
    else
      (* Parse parameters *)
      let params := match mcp.ParseArgument request "parameters" VNil with
                    | VSlice paramSlice => paramSlice
                    | _ => []
                    end in
      r ← Query query params;
      match r with
      | (_, Some err) =>
          mret (Some (mcp.NewToolResultErrorFromErr "Query execution failed" (Some err)), None)
      | (results, None) =>
          (* Format results as JSON *)
          match json_MarshalIndent (JRows results) "" "  " with
          | (_, Some err) =>
              mret (Some (mcp.NewToolResultErrorFromErr "Failed to format results" (Some err)), None)
          | (jsonData, None) =>
              mret (Some (mcp.NewToolResultText
                            ("Query executed successfully. Results:" +:+ json_open +:+ jsonData +:+ json_close)),
                    None)
          end
      end.

(** handleExecuteStatement handles INSERT/UPDATE/DELETE statements *)
Definition handleExecuteStatement (request : mcp.CallToolRequest)
    : M (option mcp.CallToolResult * option error) :=
  let statement := mcp.ParseString request "statement" "" in
  if decide (statement = "") then
    mret (Some (mcp.NewToolResultError "statement parameter is required"), None)
  else
    (* Validate that it's not a SELECT query *)
    let trimmedStatement := strings_TrimSpace (strings_ToUpper statement) in
    if strings.HasPrefix trimmedStatement "SELECT" then
      mret (Some (mcp.NewToolResultError "SELECT queries should use execute_query tool"), None)
    else
      (* Parse parameters *)
      let params := match mcp.ParseArgument request "parameters" VNil with
                    | VSlice paramSlice => paramSlice
                    | _ => []
                    end in
      r ← Execute statement params;
      match r with
      | (_, Some err) =>
          mret (Some (mcp.NewToolResultErrorFromErr "Statement execution failed" (Some err)), None)
      | (rowsAffected, None) =>
          mret (Some (mcp.NewToolResultText
                        ("Statement executed successfully. Rows affected: " +:+ pretty rowsAffected)),
                None)
      end.

(** handleListTables handles listing all tables *)
Definition handleListTables (_ : mcp.CallToolRequest)
    : M (option mcp.CallToolResult * option error) :=
  r ← GetTables;
  match r with
  | (_, Some err) =>
      mret (Some (mcp.NewToolResultErrorFromErr "Failed to list tables" (Some err)), None)
  | (tables, None) =>
      if decide (length tables = 0) then
        mret (Some (mcp.NewToolResultText "No tables found in the database"), None)
      else
        match json_MarshalIndent (JStrings tables) "" "  " with
        | (_, Some err) =>
            mret (Some (mcp.NewToolResultErrorFromErr "Failed to format table list" (Some err)), None)
        | (jsonData, None) =>
            mret (Some (mcp.NewToolResultText
                          ("Tables in database:" +:+ json_open +:+ jsonData +:+ json_close)),
                  None)
        end
  end.

(** handleDescribeTable handles table schema description *)
Definition handleDescribeTable (request : mcp.CallToolRequest)
    : M (option mcp.CallToolResult * option error) :=
  let tableName := mcp.ParseString request "table_name" "" in
  if decide (tableName = "") then
    mret (Some (mcp.NewToolResultError "table_name parameter is required"), None)
  else
    r ← GetTableSchema tableName;
    match r with
    | (_, Some err) =>
        mret (Some (mcp.NewToolResultErrorFromErr
                      ("Failed to describe table '" +:+ tableName +:+ "'") (Some err)), None)
    | (schema, None) =>
        if decide (length schema = 0) then
          mret (Some (mcp.NewToolResultError ("Table '" +:+ tableName +:+ "' not found")), None)
        else
          match json_MarshalIndent (JRows schema) "" "  " with
          | (_, Some err) =>
              mret (Some (mcp.NewToolResultErrorFromErr "Failed to format schema" (Some err)), None)
          | (jsonData, None) =>
              mret (Some (mcp.NewToolResultText
                            ("Schema for table '" +:+ tableName +:+ "':" +:+ json_open
                               +:+ jsonData +:+ json_close)),
                    None)
          end
    end.

(** HandleTool handles MCP tool calls *)
Definition HandleTool (request : mcp.CallToolRequest)
    : M (option mcp.CallToolResult * option error) :=
  let name := mcp.Name request in
  if decide (name = "execute_query") then handleExecuteQuery request
  else if decide (name = "execute_statement") then handleExecuteStatement request
  else if decide (name = "list_tables") then handleListTables request
  else if decide (name = "describe_table") then handleDescribeTable request
  else mret (Some (mcp.NewToolResultError ("Unknown tool: " +:+ name)), None).

End with_env.

End tools.

(** ** Package [resources] *)

Module resources.

Import database.

Section with_env.
Context {lib : GoLib} {drv : Driver}.

(** GetResources returns all available MCP resources *)
Definition GetResources : list mcp.Resource :=
  [ {| mcp.res_URI := "schema://tables";
       mcp.res_Name := "Database Tables";
       mcp.res_Description := "List of all tables in the SQLite database";
       mcp.res_MIMEType := "application/json" |} ].

(** GetResourceTemplates returns all available MCP resource templates *)
Definition GetResourceTemplates : list mcp.ResourceTemplate :=
  [ {| mcp.tmpl_URITemplate := "schema://table/{name}";
       mcp.tmpl_Name := "Table Schema";
       mcp.tmpl_Description := "Schema information for a specific table";
       mcp.tmpl_MIMEType := "application/json" |} ].

(** handleTablesList returns a list of all tables *)
Definition handleTablesList : M (list mcp.ResourceContents * option error) :=
  r ← GetTables;
  match r with
  | (_, Some err) => mret ([], Some (Errorf_w "failed to get tables: " err))
  | (tables, None) =>
      match json_MarshalIndent (JStrings tables) "" "  " with
      | (_, Some err) => mret ([], Some (Errorf_w "failed to marshal tables: " err))
      | (jsonData, None) =>
          mret ([mcp.TextResourceContents "schema://tables" "application/json" jsonData], None)
      end
  end.

(** handleTableSchema returns schema information for a specific table *)
Definition handleTableSchema (tableName : string) : M (list mcp.ResourceContents * option error) :=
  if decide (tableName = "") then
    mret ([], Some (errorString "table name is required"))
  else
    r ← GetTableSchema tableName;
    match r with
    | (_, Some err) =>
        mret ([], Some (Errorf_w ("failed to get table schema for '" +:+ tableName +:+ "': ") err))
    | (schema, None) =>
        if decide (length schema = 0) then
          mret ([], Some (errorString ("table '" +:+ tableName +:+ "' not found")))
        else
          (* Create a more structured response *)
          match json_MarshalIndent (JTableInfo tableName schema) "" "  " with
          | (_, Some err) => mret ([], Some (Errorf_w "failed to marshal table schema: " err))
          | (jsonData, None) =>
              mret ([mcp.TextResourceContents ("schema://table/" +:+ tableName)
                       "application/json" jsonData], None)
          end
    end.

(** HandleResource handles MCP resource requests *)
Definition HandleResource (request : mcp.ReadResourceRequest)
    : M (list mcp.ResourceContents * option error) :=
  let uri := mcp.URI request in
  if decide (uri = "schema://tables") then handleTablesList
  else if strings.HasPrefix uri "schema://table/" then
    let tableName := strings.TrimPrefix uri "schema://table/" in
    handleTableSchema tableName
  else mret ([], Some (errorString ("unknown resource URI: " +:+ uri))).

End with_env.

End resources.

(** ** Package [server] (the protocol server) and [cmd/server/main.go] *)

Module server.

Import database.

Section with_env.
Context {lib : GoLib} {drv : Driver}.

Definition ToolHandlerFunc : Type :=
  mcp.CallToolRequest → M (option mcp.CallToolResult * option error).

Definition ResourceHandlerFunc : Type :=
  mcp.ReadResourceRequest → M (list mcp.ResourceContents * option error).

Record ServerTool : Type := {
  Tool : mcp.Tool;
  Handler : ToolHandlerFunc
}.

(** The registries of the protocol server: each is a Go map keyed by the
    tool name, the resource URI or the URI template. *)
Record MCPServer : Type := {
  srv_name : string;
  srv_version : string;
  srv_tools : gmap string ServerTool;
  srv_resources : gmap string (mcp.Resource * ResourceHandlerFunc);
  srv_resourceTemplates : gmap string (mcp.ResourceTemplate * ResourceHandlerFunc)
}.

Definition NewMCPServer (name version : string) : MCPServer :=
  {| srv_name := name; srv_version := version;
     srv_tools := ∅; srv_resources := ∅; srv_resourceTemplates := ∅ |}.

Definition AddTool (s : MCPServer) (tool : mcp.Tool) (handler : ToolHandlerFunc) : MCPServer :=
  {| srv_name := srv_name s; srv_version := srv_version s;
     srv_tools := <[mcp.tool_Name tool := {| Tool := tool; Handler := handler |}]> (srv_tools s);
     srv_resources := srv_resources s;
     srv_resourceTemplates := srv_resourceTemplates s |}.

Definition AddResource (s : MCPServer) (resource : mcp.Resource) (handler : ResourceHandlerFunc)
    : MCPServer :=
  {| srv_name := srv_name s; srv_version := srv_version s;
     srv_tools := srv_tools s;
     srv_resources := <[mcp.res_URI resource := (resource, handler)]> (srv_resources s);
     srv_resourceTemplates := srv_resourceTemplates s |}.

Definition AddResourceTemplate (s : MCPServer) (template : mcp.ResourceTemplate)
    (handler : ResourceHandlerFunc) : MCPServer :=
  {| srv_name := srv_name s; srv_version := srv_version s;
     srv_tools := srv_tools s;
     srv_resources := srv_resources s;
     srv_resourceTemplates :=
       <[mcp.tmpl_URITemplate template := (template, handler)]> (srv_resourceTemplates s) |}.

(** createMCPServer creates and configures the MCP server *)
Definition createMCPServer : MCPServer := NewMCPServer "sqlite-mcp" "1.0.0".

(** One round of the loop over [queryTools.GetTools()]: the server and
    the lines written to the log so far. *)
Definition register_tool (readWrite : bool) (acc : MCPServer * list string) (tool : mcp.Tool)
    : MCPServer * list string :=
  let '(mcpServer, logged) := acc in
  (* In read-only mode, skip write operations *)
  if negb readWrite && bool_decide (mcp.tool_Name tool = "execute_statement") then
    (mcpServer,
     logged ++ ["Skipping write tool '" +:+ mcp.tool_Name tool +:+ "' in read-only mode"])
  else
    (AddTool mcpServer tool tools.HandleTool, logged).

(** registerToolsAndResources registers tools and resources with the MCP server *)
Definition registerToolsAndResources (mcpServer : MCPServer) (readWrite : bool)
    : MCPServer * list string :=
  (* Register tools based on read-write mode *)
  let '(mcpServer, logged) := foldl (register_tool readWrite) (mcpServer, []) tools.GetTools in
  (* Register resources *)
  let mcpServer :=
    foldl (λ s resource, AddResource s resource resources.HandleResource)
          mcpServer resources.GetResources in
  (* Register resource templates *)
  let mcpServer :=
    foldl (λ s template, AddResourceTemplate s template resources.HandleResource)
          mcpServer resources.GetResourceTemplates in
  (mcpServer, logged).

End with_env.

End server.

(** ** Package [testutil]: a library instance and a test database

    An instance of the libraries for ASCII text, and a driver that
    answers like the database [CreateTestDB] builds (tables [users] and
    [products]), for running the handlers on concrete requests. *)

Module testutil.

Import database.

Definition upper_byte (c : Ascii.ascii) : Ascii.ascii :=
  let n := Ascii.nat_of_ascii c in
  if (97 <=? n)%nat && (n <=? 122)%nat then Ascii.ascii_of_nat (n - 32) else c.

Fixpoint ToUpper (s : string) : string :=
  match s with
  | EmptyString => EmptyString
  | String c s' => String (upper_byte c) (ToUpper s')
  end.

Fixpoint trim_left (s : string) : string :=
  match s with
  | EmptyString => EmptyString
  | String c s' => if Ascii.is_space c then trim_left s' else s
  end.

Fixpoint trim_right (s : string) : string :=
  match s with
  | EmptyString => EmptyString
  | String c s' =>
      let t := trim_right s' in
      if Ascii.is_space c && bool_decide (t = EmptyString) then EmptyString else String c t
  end.

Definition TrimSpace (s : string) : string := trim_right (trim_left s).

Definition ToString (v : any) : string :=
  match v with
  | VNil => ""
  | VBool true => "true"
  | VBool false => "false"
  | VInt64 n => pretty n
  | VFloat64 text => text
  | VString s => s
  | VBytes b => b
  | VSlice _ | VMap _ => ""
  end.

(** JSON documents and their indented text; texts are taken to need no
    escaping. *)
Inductive json : Type :=
| JNull
| JRaw (text : string)
| JText (s : string)
| JArray (items : list json)
| JObject (members : list (string * json)).

Definition quote (s : string) : string :=
  String (Ascii.ascii_of_nat 34) (s +:+ String (Ascii.ascii_of_nat 34) EmptyString).

Fixpoint render (indent : string) (j : json) : string :=
  let inner := indent +:+ "  " in
  match j with
  | JNull => "null"
  | JRaw text => text
  | JText s => quote s
  | JArray [] => "[]"
  | JArray (x :: items) =>
      "[" +:+ newline +:+ inner +:+ render inner x +:+
      (fix rest (l : list json) : string :=
         match l with
         | [] => ""
         | y :: l' => "," +:+ newline +:+ inner +:+ render inner y +:+ rest l'
         end) items +:+
      newline +:+ indent +:+ "]"
  | JObject [] => "{}"
  | JObject ((k, x) :: members) =>
      "{" +:+ newline +:+ inner +:+ quote k +:+ ": " +:+ render inner x +:+
      (fix rest (l : list (string * json)) : string :=
         match l with
         | [] => ""
         | (k', y) :: l' =>
             "," +:+ newline +:+ inner +:+ quote k' +:+ ": " +:+ render inner y +:+ rest l'
         end) members +:+
      newline +:+ indent +:+ "}"
  end.

Definition json_of_scalar (v : any) : json :=
  match v with
  | VNil => JNull
  | VBool true => JRaw "true"
  | VBool false => JRaw "false"
  | VInt64 n => JRaw (pretty n)
  | VFloat64 text => JRaw text
  | VString s => JText s
  | VBytes _ | VSlice _ | VMap _ => JNull
  end.

Fixpoint insert_sorted (kv : string * json) (l : list (string * json)) : list (string * json) :=
  match l with
  | [] => [kv]
  | kv' :: l' => if String.leb kv.1 kv'.1 then kv :: l else kv' :: insert_sorted kv l'
  end.

(** An object's members are written in the order of their keys. *)
Definition json_of_row (row : Row) : json :=
  JObject (foldr insert_sorted [] (prod_map id json_of_scalar <$> map_to_list row)).

(** A nil slice is written [null]. *)
Definition json_of_rows (rows : list Row) : json :=
  match rows with
  | [] => JNull
  | _ => JArray (json_of_row <$> rows)
  end.

Definition MarshalIndent (v : jsonable) (_ _ : string) : string * option error :=
  match v with
  | JRows rows => (render "" (json_of_rows rows), None)
  | JStrings [] => ("null", None)
  | JStrings l => (render "" (JArray (JText <$> l)), None)
  | JTableInfo table_name columns =>
      (render "" (JObject [("columns", json_of_rows columns); ("table_name", JText table_name)]),
       None)
  end.

#[export] Instance ascii_lib : GoLib := {|
  strings_ToUpper := ToUpper;
  strings_TrimSpace := TrimSpace;
  cast_ToString := ToString;
  json_MarshalIndent := MarshalIndent
|}.

(** The file system holds the one database file. *)
Definition test_db_path : string := "/tmp/test.db".

#[export] Instance test_fs : FileSystem := {|
  os_Stat p := if decide (p = test_db_path) then None else Some ErrNotExist
|}.

(** The state of the test database: the rows of [users]. *)
Definition users_rows : list (list any) :=
  [ [VInt64 1; VString "Alice"; VString "alice@example.com"; VInt64 30];
    [VInt64 2; VString "Bob"; VString "bob@example.com"; VInt64 25] ].

Definition table_info_columns : list string :=
  ["cid"; "name"; "type"; "notnull"; "dflt_value"; "pk"].

Definition users_info : list (list any) :=
  [ [VInt64 0; VString "id"; VString "INTEGER"; VInt64 0; VNil; VInt64 1];
    [VInt64 1; VString "name"; VString "TEXT"; VInt64 1; VNil; VInt64 0];
    [VInt64 2; VString "email"; VString "TEXT"; VInt64 0; VNil; VInt64 0];
    [VInt64 3; VString "age"; VString "INTEGER"; VInt64 0; VNil; VInt64 0] ].

Definition products_info : list (list any) :=
  [ [VInt64 0; VString "id"; VString "INTEGER"; VInt64 0; VNil; VInt64 1];
    [VInt64 1; VString "name"; VString "TEXT"; VInt64 1; VNil; VInt64 0];
    [VInt64 2; VString "price"; VString "REAL"; VInt64 0; VNil; VInt64 0] ].

Definition cursor (columns : list string) (rows : list (list any)) : Rows + error :=
  inl {| Columns := (columns, None);
         scans := (λ values, (values, None)) <$> rows;
         rows_Err := None |}.

Definition test_Query (c : list (list any)) (query : string) (args : list any)
    : (Rows + error) * list (list any) :=
  if decide (query = "SELECT name FROM sqlite_master WHERE type='table' AND name NOT LIKE 'sqlite_%' ORDER BY name")
  then (cursor ["name"] [[VString "products"]; [VString "users"]], c)
  else if decide (query = "PRAGMA table_info(users)") then (cursor table_info_columns users_info, c)
  else if decide (query = "PRAGMA table_info(products)") then (cursor table_info_columns products_info, c)
  else if strings.HasPrefix query "PRAGMA table_info(" then (cursor table_info_columns [], c)
  else if decide (query = "SELECT * FROM users ORDER BY id")
  then (cursor ["id"; "name"; "email"; "age"] c, c)
  else if decide (query = "SELECT COUNT(*) FROM users")
  then (cursor ["COUNT(*)"] [[VInt64 (Z.of_nat (length c))]], c)
  else (inr (errorString "SQL logic error"), c).

Definition test_Exec (c : list (list any)) (statement : string) (args : list any)
    : (Result + error) * list (list any) :=
  if decide (statement = "INSERT INTO users (name, email, age) VALUES (?, ?, ?)") then
    match args with
    | [name; email; age] =>
        (inl {| RowsAffected := (1%Z, None) |},
         c ++ [[VInt64 (Z.of_nat (S (length c))); name; email; age]])
    | _ => (inr (errorString "missing argument"), c)
    end
  else if decide (statement = "DELETE FROM users") then
    (inl {| RowsAffected := (Z.of_nat (length c), None) |}, [])
  else (inr (errorString "SQL logic error"), c).

#[export] Instance test_driver : Driver := {|
  conn := list (list any);
  sql_Open driverName dsn :=
    if decide (driverName = "sqlite") then inl users_rows
    else inr (errorString ("sql: unknown driver " +:+ driverName));
  conn_Ping _ := None;
  conn_Close _ := None;
  conn_Query := test_Query;
  conn_Exec := test_Exec
|}.

(** CreateTestDB creates a test SQLite database with sample data *)
Definition CreateTestDB : Store :=
  {| st_conn := users_rows; st_calls := [] |}.

Definition request (name : string) (args : list (string * any)) : mcp.CallToolRequest :=
  {| mcp.Name := name; mcp.Arguments := list_to_map args |}.

(** The requests of the test suite that the dispatcher turns away. *)
Definition insert_as_query : mcp.CallToolRequest :=
  request "execute_query"
    [("query",
      VString "INSERT INTO users (name, email, age) VALUES ('Charlie', 'charlie@example.com', 35)")].

Definition select_as_statement : mcp.CallToolRequest :=
  request "execute_statement" [("statement", VString "SELECT * FROM users")].

Definition select_as_query : mcp.CallToolRequest :=
  request "execute_query" [("query", VString "SELECT * FROM users")].

Definition unknown_tool : mcp.CallToolRequest :=
  request "unknown_tool" [].

Definition describe_non_existent : mcp.CallToolRequest :=
  request "describe_table" [("table_name", VString "non_existent")].

End testutil.

(** ** Package [strconv] *)

Module strconv.




End strconv.

(** ** Package [main] ([cmd/server/main.go]) *)

(** The process around the server: its environment variables, and
    [strings.ToLower]. *)
Class Process : Type := {
  os_Getenv : string → string;
  strings_ToLower : string → string
}.

Module main.

Import database.

Definition defaultDB : string := "./database.db".

(** Transport types *)
Definition transportSSE : string := "sse".
Definition transportStreamableHTTP : string := "streamable-http".

(** The transport server [runServer] creates. *)
Inductive transportServer : Type :=
| StreamableHTTPServer
| SSEServer.

Section with_env.
Context {lib : GoLib} {proc : Process} {drv : Driver} {fs : FileSystem}.


(** getDefaultTransport returns the transport to use based on MCP_TRANSPORT environment variable. *)
Definition getDefaultTransport : string * list string :=
  let defaultTransport := transportStreamableHTTP in
  let transportEnv := os_Getenv "MCP_TRANSPORT" in
  if decide (transportEnv = "") then (defaultTransport, [])
  else
    (* Normalize the transport value *)
    let transport := strings_ToLower (strings_TrimSpace transportEnv) in
    (* Validate the transport value *)
    if bool_decide (transport ≠ transportSSE) && bool_decide (transport ≠ transportStreamableHTTP)
    then (defaultTransport,
          ["Invalid MCP_TRANSPORT: " +:+ transportEnv +:+ ", using default: " +:+ defaultTransport])
    else (transport, []).

(** initializeDatabase validates and initializes the database connection.
    [inl] is the pointer it returns, [inr] the message of [log.Fatalf],
    which ends the process. *)
Definition initializeDatabase (dbPath : string) (readWrite : bool)
    : (option DB + string) * list event :=
  (* Validate database file exists (skip check for in-memory databases) *)
  let '(missing, stat) :=
    if bool_decide (dbPath ≠ ":memory:")
    then (os_IsNotExist (os_Stat dbPath), [EvStat dbPath])
    else (false, []) in
  if missing then (inr ("Database file does not exist: " +:+ dbPath), stat)
  else
    (* Initialize database connection with read-only mode detection *)
    match New dbPath (negb readWrite) with
    | ((_, Some err), evs) => (inr ("Failed to connect to database: " +:+ Error err), stat ++ evs)
    | ((db, None), evs) => (inl db, stat ++ evs)
    end.

(** The transport switch that opens [runServer]: the server it creates
    and the line it logs, or the message of [log.Fatalf]. *)
Definition runServer_transport (transport : string) : (transportServer + string) * list string :=
  let t := strings_ToLower transport in
  if decide (t = transportStreamableHTTP) then
    (inl StreamableHTTPServer, ["Using streamable-http transport"])
  else if decide (t = transportSSE) then
    (inl SSEServer, ["Using SSE transport"])
  else
    (inr ("Invalid transport: " +:+ transport +:+ ". Must be 'sse' or 'streamable-http'"), []).

(** logServerStart logs server startup information *)
Definition logServerStart (addr dbPath : string) (readWrite : bool) (transport : string)
    : list string :=
  let mode := if readWrite then "read-write" else "read-only" in
  [ "Starting SQLite MCP Server on " +:+ addr +:+ " (" +:+ mode +:+ " mode, " +:+ transport
      +:+ " transport)";
    "Database: " +:+ dbPath;
    (if readWrite
     then "Available tools: execute_query, execute_statement, list_tables, describe_table"
     else "Available tools: execute_query, list_tables, describe_table");
    "Available resources: schema://tables, schema://table/{name}" ].

End with_env.

End main.

(** ** An environment for the tests of [main] *)

Module testenv.

Fixpoint ToLower (s : string) : string :=
  match s with
  | EmptyString => EmptyString
  | String c s' =>
      let n := Ascii.nat_of_ascii c in
      String (if (65 <=? n)%nat && (n <=? 90)%nat then Ascii.ascii_of_nat (n + 32) else c)
             (ToLower s')
  end.

(** [MCP_PORT=9000] and [MCP_TRANSPORT= SSE ]. *)
#[export] Instance test_process : Process := {|
  os_Getenv key :=
    if decide (key = "MCP_PORT") then "9000"
    else if decide (key = "MCP_TRANSPORT") then " SSE "
    else "";
  strings_ToLower := ToLower
|}.

(** A cursor for the catalog query whose names come as bytes and as text. *)
Definition names_driver : Driver := {|
  conn := unit;
  sql_Open _ _ := inl tt;
  conn_Ping _ := None;
  conn_Close _ := None;
  conn_Query c _ _ :=
    (inl {| Columns := (["name"], None);
            scans := [([VBytes "products"], None); ([VString "users"], None)];
            rows_Err := None |}, c);
  conn_Exec c _ _ := (inr (errorString "attempt to write a readonly database"), c)
|}.

(** A driver whose ping fails. *)
Definition unreachable_driver : Driver := {|
  conn := unit;
  sql_Open _ _ := inl tt;
  conn_Ping _ := Some (errorString "unable to open database file");
  conn_Close _ := None;
  conn_Query c _ _ := (inr (errorString "closed"), c);
  conn_Exec c _ _ := (inr (errorString "closed"), c)
|}.

(** A database without tables. *)
Definition empty_driver : Driver := {|
  conn := unit;
  sql_Open _ _ := inl tt;
  conn_Ping _ := None;
  conn_Close _ := None;
  conn_Query c _ _ := (inl {| Columns := (["name"], None); scans := []; rows_Err := None |}, c);
  conn_Exec c _ _ := (inr (errorString "attempt to write a readonly database"), c)
|}.

Definition a_store (d : Driver) (c : @conn d) : @database.Store d :=
  {| database.st_conn := c; database.st_calls := [] |}.

(** A query in lower case after blanks, with [parameters] that is not an
    array. *)
Definition spaced_query : mcp.CallToolRequest :=
  testutil.request "execute_query"
    [("query", VString "  select * FROM users ORDER BY id");
     ("parameters", VString "27")].

(** The insert of the test suite. *)
Definition insert_statement : mcp.CallToolRequest :=
  testutil.request "execute_statement"
    [("statement", VString "INSERT INTO users (name, email, age) VALUES (?, ?, ?)");
     ("parameters", VSlice [VString "Charlie"; VString "charlie@example.com"; VString "35"])].

End testenv.

(** * Properties *)

(** ** Strings *)

Lemma append_String (c : Ascii.ascii) (s t : string) :
  String c s +:+ t = String c (s +:+ t).
Proof. reflexivity. Qed.

Lemma append_empty_l (t : string) : EmptyString +:+ t = t.
Proof. reflexivity. Qed.

Lemma HasPrefix_append (p s : string) : strings.HasPrefix (p +:+ s) p = true.
Proof.
  induction p as [|c p IH]; [reflexivity|].
  rewrite append_String. simpl. now rewrite Ascii.eqb_refl.
Qed.

Lemma HasPrefix_append_l (s t p : string) :
  strings.HasPrefix s p = true → strings.HasPrefix (s +:+ t) p = true.
Proof.
  revert s. induction p as [|c p IH]; intros s Hp; [reflexivity|].
  destruct s as [|d s]; [discriminate|].
  rewrite append_String. simpl in *.
  destruct (Ascii.eqb c d); [auto | discriminate].
Qed.

Lemma drop_append (p s : string) : strings.drop (String.length p) (p +:+ s) = s.
Proof. induction p as [|c p IH]; [reflexivity|]. rewrite append_String. exact IH. Qed.

Lemma TrimPrefix_append (p s : string) : strings.TrimPrefix (p +:+ s) p = s.
Proof. unfold strings.TrimPrefix. now rewrite HasPrefix_append, drop_append. Qed.

Lemma Contains_HasPrefix (s sub : string) :
  strings.HasPrefix s sub = true → strings.Contains s sub = true.
Proof. intros Hp. destruct s; simpl; rewrite Hp; reflexivity. Qed.

Lemma Contains_append_r (a s sub : string) :
  strings.Contains s sub = true → strings.Contains (a +:+ s) sub = true.
Proof.
  intros Hs. induction a as [|c a IH]; [exact Hs|].
  rewrite append_String. simpl. rewrite IH. apply orb_true_r.
Qed.

Lemma append_assoc (a b c : string) : (a +:+ b) +:+ c = a +:+ (b +:+ c).
Proof. induction a as [|x a IH]; [reflexivity|]. rewrite !append_String. now rewrite IH. Qed.

Lemma Contains_middle (a b c : string) : strings.Contains ((a +:+ b) +:+ c) b = true.
Proof.
  rewrite append_assoc.
  apply Contains_append_r, Contains_HasPrefix, HasPrefix_append.
Qed.

(** A URI that starts with the table prefix is not the table-list URI. *)
Lemma table_uri_not_tables (name : string) : "schema://table/" +:+ name ≠ "schema://tables".
Proof. discriminate. Qed.

(** ** The wrapper and the store *)

Section dispatch.
Context {lib : GoLib} {drv : Driver} {fs : FileSystem}.

Import database.

Ltac run_M := unfold mbind, mret, M_bind, M_ret in *.

(** [Query] hands its text and arguments to the driver once, whatever
    comes back. *)
Lemma Query_store (query : string) (args : list any) (st : Store) :
  (Query query args st).2 =
    {| st_conn := (conn_Query (st_conn st) query args).2;
       st_calls := st_calls st ++ [CallQuery query args] |}.
Proof.
  unfold Query, driver_Query. run_M.
  destruct (conn_Query (st_conn st) query args) as [[rows|err] c]; simpl; [|reflexivity].
  destruct (Columns rows) as [columns [err|]]; [reflexivity|].
  destruct (scan_rows columns (scans rows) []) as [results [err|]]; [reflexivity|].
  destruct (rows_Err rows); reflexivity.
Qed.

Lemma Execute_store (statement : string) (args : list any) (st : Store) :
  (Execute statement args st).2 =
    {| st_conn := (conn_Exec (st_conn st) statement args).2;
       st_calls := st_calls st ++ [CallExec statement args] |}.
Proof.
  unfold Execute, driver_Exec. run_M.
  destruct (conn_Exec (st_conn st) statement args) as [[result|err] c]; simpl; [|reflexivity].
  destruct (RowsAffected result) as [n [err|]]; reflexivity.
Qed.

Lemma GetTableSchema_store (tableName : string) (st : Store) :
  (GetTableSchema tableName st).2 =
    {| st_conn := (conn_Query (st_conn st) ("PRAGMA table_info(" +:+ tableName +:+ ")") []).2;
       st_calls := st_calls st ++ [CallQuery ("PRAGMA table_info(" +:+ tableName +:+ ")") []] |}.
Proof. apply Query_store. Qed.

(** What the two schema handlers leave in the store. *)
Lemma handleDescribeTable_store (request : mcp.CallToolRequest) (st : Store) :
  (tools.handleDescribeTable request st).2 =
    if decide (mcp.ParseString request "table_name" "" = "") then st
    else (GetTableSchema (mcp.ParseString request "table_name" "") st).2.
Proof.
  unfold tools.handleDescribeTable. cbv zeta.
  destruct (decide (mcp.ParseString request "table_name" "" = "")); [reflexivity|].
  run_M.
  destruct (GetTableSchema _ st) as [[schema [err|]] st1]; simpl; [reflexivity|].
  case_decide; [reflexivity|].
  destruct (json_MarshalIndent _ _ _) as [jsonData [err|]]; reflexivity.
Qed.

Lemma handleTableSchema_store (tableName : string) (st : Store) :
  (resources.handleTableSchema tableName st).2 =
    if decide (tableName = "") then st else (GetTableSchema tableName st).2.
Proof.
  unfold resources.handleTableSchema.
  destruct (decide (tableName = "")); [reflexivity|].
  run_M.
  destruct (GetTableSchema _ st) as [[schema [err|]] st1]; simpl; [reflexivity|].
  case_decide; [reflexivity|].
  destruct (json_MarshalIndent _ _ _) as [jsonData [err|]]; reflexivity.
Qed.

(** ** The SELECT gate of the two SQL tools *)

(** The dispatcher, tool by tool. *)
Lemma HandleTool_execute_query (request : mcp.CallToolRequest) :
  mcp.Name request = "execute_query" →
  tools.HandleTool request = tools.handleExecuteQuery request.
Proof. intros Hn. unfold tools.HandleTool. cbv zeta. rewrite Hn. reflexivity. Qed.

Lemma HandleTool_execute_statement (request : mcp.CallToolRequest) :
  mcp.Name request = "execute_statement" →
  tools.HandleTool request = tools.handleExecuteStatement request.
Proof. intros Hn. unfold tools.HandleTool. cbv zeta. rewrite Hn. reflexivity. Qed.

Lemma HandleTool_list_tables (request : mcp.CallToolRequest) :
  mcp.Name request = "list_tables" →
  tools.HandleTool request = tools.handleListTables request.
Proof. intros Hn. unfold tools.HandleTool. cbv zeta. rewrite Hn. reflexivity. Qed.

Lemma HandleTool_describe_table (request : mcp.CallToolRequest) :
  mcp.Name request = "describe_table" →
  tools.HandleTool request = tools.handleDescribeTable request.
Proof. intros Hn. unfold tools.HandleTool. cbv zeta. rewrite Hn. reflexivity. Qed.

(** The gate of [execute_query], closed. *)
Lemma handleExecuteQuery_gate (request : mcp.CallToolRequest) (st : Store) (query : string) :
  mcp.ParseString request "query" "" = query →
  query ≠ "" →
  strings.HasPrefix (strings_TrimSpace (strings_ToUpper query)) "SELECT" = false →
  tools.handleExecuteQuery request st =
    ((Some (mcp.NewToolResultError "only SELECT queries are allowed with execute_query"), None), st).
Proof.
  intros Hq Hne Hgate. unfold tools.handleExecuteQuery. cbv zeta. rewrite Hq.
  destruct (decide (query = "")); [contradiction|].
  rewrite Hgate. reflexivity.
Qed.

(** The gate of [execute_statement], closed. *)
Lemma handleExecuteStatement_gate (request : mcp.CallToolRequest) (st : Store)
    (statement : string) :
  mcp.ParseString request "statement" "" = statement →
  statement ≠ "" →
  strings.HasPrefix (strings_TrimSpace (strings_ToUpper statement)) "SELECT" = true →
  tools.handleExecuteStatement request st =
    ((Some (mcp.NewToolResultError "SELECT queries should use execute_query tool"), None), st).
Proof.
  intros Hs Hne Hgate. unfold tools.handleExecuteStatement. cbv zeta. rewrite Hs.
  destruct (decide (statement = "")); [contradiction|].
  rewrite Hgate. reflexivity.
Qed.

(** C2. A non-empty query whose trimmed, upper-cased text does not start
    with SELECT: [execute_query] answers with the soft error
    "only SELECT queries are allowed with execute_query", a result with a
    nil error, and the store is the one it started from: the connection
    state is untouched and no call reached the driver. *)
Theorem execute_query_rejects_non_select
    (request : mcp.CallToolRequest) (st : Store) (query : string) :
  mcp.ParseString request "query" "" = query →
  query ≠ "" →
  strings.HasPrefix (strings_TrimSpace (strings_ToUpper query)) "SELECT" = false →
  tools.handleExecuteQuery request st =
    ((Some {| mcp.Content_of :=
                [mcp.TextContent "only SELECT queries are allowed with execute_query"];
              mcp.IsError := true |}, None), st)
  ∧ (mcp.Name request = "execute_query" →
     tools.HandleTool request st =
       ((Some (mcp.NewToolResultError "only SELECT queries are allowed with execute_query"), None),
        st)).
Proof.
  intros Hq Hne Hgate.
  pose proof (handleExecuteQuery_gate request st query Hq Hne Hgate) as Hh.
  split; [exact Hh|].
  intros Hname. now rewrite (HandleTool_execute_query request Hname).
Qed.

(** C3. A non-empty statement whose trimmed, upper-cased text starts with
    SELECT: [execute_statement] answers with the soft error
    "SELECT queries should use execute_query tool" and nothing is executed:
    the store is the one it started from. *)
Theorem execute_statement_rejects_select
    (request : mcp.CallToolRequest) (st : Store) (statement : string) :
  mcp.ParseString request "statement" "" = statement →
  statement ≠ "" →
  strings.HasPrefix (strings_TrimSpace (strings_ToUpper statement)) "SELECT" = true →
  tools.handleExecuteStatement request st =
    ((Some {| mcp.Content_of :=
                [mcp.TextContent "SELECT queries should use execute_query tool"];
              mcp.IsError := true |}, None), st)
  ∧ (mcp.Name request = "execute_statement" →
     tools.HandleTool request st =
       ((Some (mcp.NewToolResultError "SELECT queries should use execute_query tool"), None), st)).
Proof.
  intros Hs Hne Hgate.
  pose proof (handleExecuteStatement_gate request st statement Hs Hne Hgate) as Hh.
  split; [exact Hh|].
  intros Hname. now rewrite (HandleTool_execute_statement request Hname).
Qed.

(** The answers of [execute_query] once its gate is passed are not its
    gate's soft error. *)
Lemma execute_query_passes (request : mcp.CallToolRequest) (st : Store) :
  mcp.ParseString request "query" "" ≠ "" →
  strings.HasPrefix (strings_TrimSpace (strings_ToUpper (mcp.ParseString request "query" "")))
    "SELECT" = true →
  (tools.handleExecuteQuery request st).1 ≠
    (Some (mcp.NewToolResultError "only SELECT queries are allowed with execute_query"), None).
Proof.
  intros Hne Hgate. unfold tools.handleExecuteQuery. cbv zeta.
  destruct (decide (mcp.ParseString request "query" "" = "")); [contradiction|].
  rewrite Hgate. simpl. run_M.
  destruct (Query _ _ st) as [[results [err|]] st1]; simpl; [discriminate|].
  destruct (json_MarshalIndent _ _ _) as [jsonData [err|]]; discriminate.
Qed.

Lemma execute_statement_passes (request : mcp.CallToolRequest) (st : Store) :
  mcp.ParseString request "statement" "" ≠ "" →
  strings.HasPrefix (strings_TrimSpace (strings_ToUpper (mcp.ParseString request "statement" "")))
    "SELECT" = false →
  (tools.handleExecuteStatement request st).1 ≠
    (Some (mcp.NewToolResultError "SELECT queries should use execute_query tool"), None).
Proof.
  intros Hne Hgate. unfold tools.handleExecuteStatement. cbv zeta.
  destruct (decide (mcp.ParseString request "statement" "" = "")); [contradiction|].
  rewrite Hgate. run_M.
  destruct (Execute _ _ st) as [[rowsAffected [err|]] st1]; simpl; discriminate.
Qed.

(** C9. The two gates are complements.  For a non-empty text [s] given as
    the query of one request and as the statement of another,
    [execute_query] answers with its gate's soft error exactly when the
    trimmed, upper-cased text does not start with SELECT,
    [execute_statement] answers with its gate's soft error exactly when it
    does, and so exactly one of the two tools turns [s] away at its
    prefix check. *)
Theorem select_gates_complementary
    (rq rs : mcp.CallToolRequest) (st st' : Store) (s : string) :
  s ≠ "" →
  mcp.ParseString rq "query" "" = s →
  mcp.ParseString rs "statement" "" = s →
  ((tools.handleExecuteQuery rq st).1 =
     (Some (mcp.NewToolResultError "only SELECT queries are allowed with execute_query"), None)
   ↔ strings.HasPrefix (strings_TrimSpace (strings_ToUpper s)) "SELECT" = false)
  ∧ ((tools.handleExecuteStatement rs st').1 =
       (Some (mcp.NewToolResultError "SELECT queries should use execute_query tool"), None)
     ↔ strings.HasPrefix (strings_TrimSpace (strings_ToUpper s)) "SELECT" = true)
  ∧ ((tools.handleExecuteQuery rq st).1 =
       (Some (mcp.NewToolResultError "only SELECT queries are allowed with execute_query"), None)
     ↔ (tools.handleExecuteStatement rs st').1 ≠
         (Some (mcp.NewToolResultError "SELECT queries should use execute_query tool"), None)).
Proof.
  intros Hne Hq Hs.
  assert (Hne_q : mcp.ParseString rq "query" "" ≠ "") by now rewrite Hq.
  assert (Hne_s : mcp.ParseString rs "statement" "" ≠ "") by now rewrite Hs.
  pose proof (execute_query_passes rq st Hne_q) as Pq.
  pose proof (execute_statement_passes rs st' Hne_s) as Ps.
  rewrite Hq in Pq. rewrite Hs in Ps.
  destruct (strings.HasPrefix (strings_TrimSpace (strings_ToUpper s)) "SELECT") eqn:Hgate.
  - pose proof (handleExecuteStatement_gate rs st' s Hs Hne Hgate) as Rs.
    specialize (Pq eq_refl). rewrite Rs. simpl.
    repeat split; try done; intros Hx; contradiction.
  - pose proof (handleExecuteQuery_gate rq st s Hq Hne Hgate) as Rq.
    specialize (Ps eq_refl). rewrite Rq. simpl.
    repeat split; try done.
Qed.

(** ** Table schemas *)

(** The answer of the resource path for a table name. *)
Lemma HandleResource_table (name : string) (st : Store) :
  resources.HandleResource {| mcp.URI := "schema://table/" +:+ name |} st =
    resources.handleTableSchema name st.
Proof.
  unfold resources.HandleResource. cbv beta iota zeta delta [mcp.URI].
  destruct (decide ("schema://table/" +:+ name = "schema://tables")) as [Heq|_];
    [now apply table_uri_not_tables in Heq|].
  now rewrite HasPrefix_append, TrimPrefix_append.
Qed.

(** C10. [GetTableSchema] puts the table name as it stands between
    "PRAGMA table_info(" and ")" and hands that text to the driver with no
    bound parameter; this is the text the driver receives from
    [describe_table] and from the [schema://table/{name}] resource for
    every name that is not empty. *)
Theorem GetTableSchema_sql_text (tableName : string) (st : Store) :
  GetTableSchema tableName st = Query ("PRAGMA table_info(" +:+ tableName +:+ ")") [] st
  ∧ st_calls (GetTableSchema tableName st).2 =
      st_calls st ++ [CallQuery ("PRAGMA table_info(" +:+ tableName +:+ ")") []]
  ∧ (∀ request : mcp.CallToolRequest,
       st_calls (tools.handleDescribeTable request st).2 =
         if decide (mcp.ParseString request "table_name" "" = "") then st_calls st
         else st_calls st ++
              [CallQuery ("PRAGMA table_info(" +:+ mcp.ParseString request "table_name" "" +:+ ")") []])
  ∧ st_calls (resources.HandleResource {| mcp.URI := "schema://table/" +:+ tableName |} st).2 =
      if decide (tableName = "") then st_calls st
      else st_calls st ++ [CallQuery ("PRAGMA table_info(" +:+ tableName +:+ ")") []].
Proof.
  split; [reflexivity|].
  split; [now rewrite GetTableSchema_store|].
  split.
  - intros request. rewrite handleDescribeTable_store.
    case_decide; [reflexivity|]. now rewrite GetTableSchema_store.
  - rewrite HandleResource_table, handleTableSchema_store.
    case_decide; [reflexivity|]. now rewrite GetTableSchema_store.
Qed.

Lemma handleTableSchema_empty (name : string) (st : Store) :
  name ≠ "" →
  (GetTableSchema name st).1 = ([], None) →
  (resources.handleTableSchema name st).1 =
    ([], Some (errorString ("table '" +:+ name +:+ "' not found"))).
Proof.
  intros Hne Hempty. unfold resources.handleTableSchema.
  destruct (decide (name = "")); [contradiction|]. run_M.
  destruct (GetTableSchema name st) as [r st1]. simpl in Hempty. subst r. reflexivity.
Qed.

Lemma handleDescribeTable_empty (request : mcp.CallToolRequest) (name : string) (st : Store) :
  mcp.ParseString request "table_name" "" = name →
  name ≠ "" →
  (GetTableSchema name st).1 = ([], None) →
  (tools.handleDescribeTable request st).1 =
    (Some (mcp.NewToolResultError ("Table '" +:+ name +:+ "' not found")), None).
Proof.
  intros Hname Hne Hempty. unfold tools.handleDescribeTable. cbv zeta. rewrite Hname.
  destruct (decide (name = "")); [contradiction|]. run_M.
  destruct (GetTableSchema name st) as [r st1]. simpl in Hempty. subst r. reflexivity.
Qed.

(** C7. A table name that is not empty and whose schema comes back
    empty: [describe_table] answers with the soft error
    "Table '<name>' not found" and the resource path fails with the error
    "table '<name>' not found"; neither gives the empty schema back as a
    success. *)
Theorem empty_schema_is_not_found (name : string) (st : Store) :
  name ≠ "" →
  (GetTableSchema name st).1 = ([], None) →
  (∀ request : mcp.CallToolRequest,
     mcp.ParseString request "table_name" "" = name →
     (tools.handleDescribeTable request st).1 =
       (Some {| mcp.Content_of := [mcp.TextContent ("Table '" +:+ name +:+ "' not found")];
                mcp.IsError := true |}, None)
     ∧ (mcp.Name request = "describe_table" →
        (tools.HandleTool request st).1 =
          (Some (mcp.NewToolResultError ("Table '" +:+ name +:+ "' not found")), None)))
  ∧ (resources.handleTableSchema name st).1 =
      ([], Some (errorString ("table '" +:+ name +:+ "' not found")))
  ∧ (resources.HandleResource {| mcp.URI := "schema://table/" +:+ name |} st).1 =
      ([], Some (errorString ("table '" +:+ name +:+ "' not found"))).
Proof.
  intros Hne Hempty. split; [|split].
  - intros request Hname.
    pose proof (handleDescribeTable_empty request name st Hname Hne Hempty) as Hd.
    split; [exact Hd|].
    intros Hn. now rewrite (HandleTool_describe_table request Hn).
  - now apply handleTableSchema_empty.
  - rewrite HandleResource_table. now apply handleTableSchema_empty.
Qed.

(** ** The resource dispatcher *)

(** C6. The read operation fails with a real error, the contents being
    nil, in three cases: "table name is required" for the URI
    "schema://table/"; "table '<name>' not found" for "schema://table/"
    followed by a non-empty name whose schema is empty; and
    "unknown resource URI: <uri>" for a URI that is neither
    "schema://tables" nor starts with "schema://table/". *)
Theorem HandleResource_hard_errors (st : Store) :
  resources.HandleResource {| mcp.URI := "schema://table/" |} st =
    (([], Some (errorString "table name is required")), st)
  ∧ (∀ name : string,
       name ≠ "" →
       (GetTableSchema name st).1 = ([], None) →
       (resources.HandleResource {| mcp.URI := "schema://table/" +:+ name |} st).1 =
         ([], Some (errorString ("table '" +:+ name +:+ "' not found"))))
  ∧ (∀ uri : string,
       uri ≠ "schema://tables" →
       strings.HasPrefix uri "schema://table/" = false →
       resources.HandleResource {| mcp.URI := uri |} st =
         (([], Some (errorString ("unknown resource URI: " +:+ uri))), st)).
Proof.
  split; [reflexivity|]. split.
  - intros name Hne Hempty. rewrite HandleResource_table. now apply handleTableSchema_empty.
  - intros uri Hne Hprefix. unfold resources.HandleResource.
    cbv beta iota zeta delta [mcp.URI].
    destruct (decide (uri = "schema://tables")); [contradiction|].
    now rewrite Hprefix.
Qed.

(** ** The tool dispatcher never fails *)

Lemma handleExecuteQuery_soft (request : mcp.CallToolRequest) (st : Store) :
  ∃ result, (tools.handleExecuteQuery request st).1 = (Some result, None).
Proof.
  unfold tools.handleExecuteQuery. cbv zeta.
  case_decide; [eexists; reflexivity|].
  destruct (strings.HasPrefix _ _); simpl; [|eexists; reflexivity]. run_M.
  destruct (Query _ _ st) as [[results [err|]] st1]; [eexists; reflexivity|].
  destruct (json_MarshalIndent _ _ _) as [jsonData [err|]]; eexists; reflexivity.
Qed.

Lemma handleExecuteStatement_soft (request : mcp.CallToolRequest) (st : Store) :
  ∃ result, (tools.handleExecuteStatement request st).1 = (Some result, None).
Proof.
  unfold tools.handleExecuteStatement. cbv zeta.
  case_decide; [eexists; reflexivity|].
  destruct (strings.HasPrefix _ _); [eexists; reflexivity|]. run_M.
  destruct (Execute _ _ st) as [[rowsAffected [err|]] st1]; eexists; reflexivity.
Qed.

Lemma handleListTables_soft (request : mcp.CallToolRequest) (st : Store) :
  ∃ result, (tools.handleListTables request st).1 = (Some result, None).
Proof.
  unfold tools.handleListTables. run_M.
  destruct (GetTables st) as [[tables [err|]] st1]; [eexists; reflexivity|].
  case_decide; [eexists; reflexivity|].
  destruct (json_MarshalIndent _ _ _) as [jsonData [err|]]; eexists; reflexivity.
Qed.

Lemma handleDescribeTable_soft (request : mcp.CallToolRequest) (st : Store) :
  ∃ result, (tools.handleDescribeTable request st).1 = (Some result, None).
Proof.
  unfold tools.handleDescribeTable. cbv zeta.
  case_decide; [eexists; reflexivity|]. run_M.
  destruct (GetTableSchema _ st) as [[schema [err|]] st1]; [eexists; reflexivity|].
  case_decide; [eexists; reflexivity|].
  destruct (json_MarshalIndent _ _ _) as [jsonData [err|]]; eexists; reflexivity.
Qed.

Lemma HandleTool_unknown (request : mcp.CallToolRequest) (st : Store) :
  mcp.Name request ∉ ["execute_query"; "execute_statement"; "list_tables"; "describe_table"] →
  tools.HandleTool request st =
    ((Some (mcp.NewToolResultError ("Unknown tool: " +:+ mcp.Name request)), None), st).
Proof.
  intros Hn. unfold tools.HandleTool. cbv zeta.
  repeat (case_decide; [exfalso; apply Hn; set_solver|]). reflexivity.
Qed.

(** An error of the wrapper comes back as a soft error with its message. *)
Lemma execute_query_sql_failure (request : mcp.CallToolRequest) (st : Store) (err : error) :
  mcp.ParseString request "query" "" ≠ "" →
  strings.HasPrefix (strings_TrimSpace (strings_ToUpper (mcp.ParseString request "query" "")))
    "SELECT" = true →
  (Query (mcp.ParseString request "query" "")
     (match mcp.ParseArgument request "parameters" VNil with VSlice l => l | _ => [] end)
     st).1.2 = Some err →
  (tools.handleExecuteQuery request st).1 =
    (Some (mcp.NewToolResultErrorFromErr "Query execution failed" (Some err)), None).
Proof.
  intros Hne Hgate Herr. unfold tools.handleExecuteQuery. cbv zeta.
  case_decide; [contradiction|]. rewrite Hgate. simpl. run_M.
  destruct (Query _ _ st) as [[results oerr] st1]. simpl in Herr. subst oerr. reflexivity.
Qed.

Lemma execute_statement_sql_failure (request : mcp.CallToolRequest) (st : Store) (err : error) :
  mcp.ParseString request "statement" "" ≠ "" →
  strings.HasPrefix (strings_TrimSpace (strings_ToUpper (mcp.ParseString request "statement" "")))
    "SELECT" = false →
  (Execute (mcp.ParseString request "statement" "")
     (match mcp.ParseArgument request "parameters" VNil with VSlice l => l | _ => [] end)
     st).1.2 = Some err →
  (tools.handleExecuteStatement request st).1 =
    (Some (mcp.NewToolResultErrorFromErr "Statement execution failed" (Some err)), None).
Proof.
  intros Hne Hgate Herr. unfold tools.handleExecuteStatement. cbv zeta.
  case_decide; [contradiction|]. rewrite Hgate. run_M.
  destruct (Execute _ _ st) as [[rowsAffected oerr] st1]. simpl in Herr. subst oerr. reflexivity.
Qed.

Lemma list_tables_sql_failure (request : mcp.CallToolRequest) (st : Store) (err : error) :
  (GetTables st).1.2 = Some err →
  (tools.handleListTables request st).1 =
    (Some (mcp.NewToolResultErrorFromErr "Failed to list tables" (Some err)), None).
Proof.
  intros Herr. unfold tools.handleListTables. run_M.
  destruct (GetTables st) as [[tables oerr] st1]. simpl in Herr. subst oerr. reflexivity.
Qed.

Lemma describe_table_sql_failure (request : mcp.CallToolRequest) (st : Store) (err : error) :
  mcp.ParseString request "table_name" "" ≠ "" →
  (GetTableSchema (mcp.ParseString request "table_name" "") st).1.2 = Some err →
  (tools.handleDescribeTable request st).1 =
    (Some (mcp.NewToolResultErrorFromErr
             ("Failed to describe table '" +:+ mcp.ParseString request "table_name" "" +:+ "'")
             (Some err)), None).
Proof.
  intros Hne Herr. unfold tools.handleDescribeTable. cbv zeta.
  case_decide; [contradiction|]. run_M.
  destruct (GetTableSchema _ st) as [[schema oerr] st1]. simpl in Herr. subst oerr. reflexivity.
Qed.

(** C4. For every tool name and every argument mapping [HandleTool]
    gives back a result and a nil error.  A name that is not one of the
    four tools gives the soft error "Unknown tool: <name>"; a required
    argument that is missing or empty gives a soft error; an error of the
    wrapper ([Query], [Execute], [GetTables], [GetTableSchema]) gives a
    soft error that carries the error's message. *)
Theorem HandleTool_soft_errors (request : mcp.CallToolRequest) (st : Store) :
  (∃ result, (tools.HandleTool request st).1 = (Some result, None))
  ∧ (mcp.Name request ∉ ["execute_query"; "execute_statement"; "list_tables"; "describe_table"] →
     tools.HandleTool request st =
       ((Some {| mcp.Content_of := [mcp.TextContent ("Unknown tool: " +:+ mcp.Name request)];
                 mcp.IsError := true |}, None), st))
  ∧ (mcp.Name request = "execute_query" →
     (mcp.ParseString request "query" "" = "" →
      tools.HandleTool request st =
        ((Some (mcp.NewToolResultError "query parameter is required"), None), st))
     ∧ (∀ err,
          mcp.ParseString request "query" "" ≠ "" →
          strings.HasPrefix
            (strings_TrimSpace (strings_ToUpper (mcp.ParseString request "query" "")))
            "SELECT" = true →
          (Query (mcp.ParseString request "query" "")
             (match mcp.ParseArgument request "parameters" VNil with VSlice l => l | _ => [] end)
             st).1.2 = Some err →
          (tools.HandleTool request st).1 =
            (Some {| mcp.Content_of :=
                       [mcp.TextContent ("Query execution failed" +:+ ": " +:+ Error err)];
                     mcp.IsError := true |}, None)))
  ∧ (mcp.Name request = "execute_statement" →
     (mcp.ParseString request "statement" "" = "" →
      tools.HandleTool request st =
        ((Some (mcp.NewToolResultError "statement parameter is required"), None), st))
     ∧ (∀ err,
          mcp.ParseString request "statement" "" ≠ "" →
          strings.HasPrefix
            (strings_TrimSpace (strings_ToUpper (mcp.ParseString request "statement" "")))
            "SELECT" = false →
          (Execute (mcp.ParseString request "statement" "")
             (match mcp.ParseArgument request "parameters" VNil with VSlice l => l | _ => [] end)
             st).1.2 = Some err →
          (tools.HandleTool request st).1 =
            (Some {| mcp.Content_of :=
                       [mcp.TextContent ("Statement execution failed" +:+ ": " +:+ Error err)];
                     mcp.IsError := true |}, None)))
  ∧ (mcp.Name request = "list_tables" →
     ∀ err,
       (GetTables st).1.2 = Some err →
       (tools.HandleTool request st).1 =
         (Some {| mcp.Content_of :=
                    [mcp.TextContent ("Failed to list tables" +:+ ": " +:+ Error err)];
                  mcp.IsError := true |}, None))
  ∧ (mcp.Name request = "describe_table" →
     (mcp.ParseString request "table_name" "" = "" →
      tools.HandleTool request st =
        ((Some (mcp.NewToolResultError "table_name parameter is required"), None), st))
     ∧ (∀ err,
          mcp.ParseString request "table_name" "" ≠ "" →
          (GetTableSchema (mcp.ParseString request "table_name" "") st).1.2 = Some err →
          (tools.HandleTool request st).1 =
            (Some {| mcp.Content_of :=
                       [mcp.TextContent
                          (("Failed to describe table '" +:+
                            mcp.ParseString request "table_name" "" +:+ "'")
                           +:+ ": " +:+ Error err)];
                     mcp.IsError := true |}, None))).
Proof.
  split; [|split; [|split; [|split; [|split]]]].
  - unfold tools.HandleTool. cbv zeta.
    case_decide; [apply handleExecuteQuery_soft|].
    case_decide; [apply handleExecuteStatement_soft|].
    case_decide; [apply handleListTables_soft|].
    case_decide; [apply handleDescribeTable_soft|].
    eexists; reflexivity.
  - apply HandleTool_unknown.
  - intros Hn. rewrite (HandleTool_execute_query request Hn). split.
    + intros Hempty. unfold tools.handleExecuteQuery. cbv zeta.
      case_decide; [reflexivity | contradiction].
    + intros err Hne Hgate Herr. now apply execute_query_sql_failure.
  - intros Hn. rewrite (HandleTool_execute_statement request Hn). split.
    + intros Hempty. unfold tools.handleExecuteStatement. cbv zeta.
      case_decide; [reflexivity | contradiction].
    + intros err Hne Hgate Herr. now apply execute_statement_sql_failure.
  - intros Hn err Herr. rewrite (HandleTool_list_tables request Hn).
    now apply list_tables_sql_failure.
  - intros Hn. rewrite (HandleTool_describe_table request Hn). split.
    + intros Hempty. unfold tools.handleDescribeTable. cbv zeta.
      case_decide; [reflexivity | contradiction].
    + intros err Hne Herr. now apply describe_table_sql_failure.
Qed.

(** ** Opening the connection *)

(** The text after the mode in the database URI. *)
Lemma New_dsn_file (dbPath : string) (readOnly : bool) :
  dbPath ≠ InMemoryDB →
  New_dsn dbPath readOnly =
    (("file:" +:+ dbPath) +:+ (if readOnly then "?mode=ro" else "?mode=rwc")) +:+
    "&_journal_mode=off&_temp_store=memory&_synchronous=off&_cache_size=-64000&_mmap_size=0".
Proof.
  intros Hne. unfold New_dsn. case_decide; [contradiction|]. now destruct readOnly.
Qed.

Lemma New_connect_opens (dbPath dsn driverName dsn' : string) :
  EvOpen driverName dsn' ∈ (New_connect dbPath dsn).2 → driverName = "sqlite" ∧ dsn' = dsn.
Proof.
  unfold New_connect.
  destruct (sql_Open "sqlite" dsn) as [c|err];
    [destruct (conn_Ping c); [destruct (conn_Close c)|]|];
    simpl; intros Hin; set_unfold; naive_solver.
Qed.

(** The only URI [New] opens is the one it built. *)
Lemma New_opens (dbPath : string) (readOnly : bool) (driverName dsn : string) :
  EvOpen driverName dsn ∈ (New dbPath readOnly).2 →
  driverName = "sqlite" ∧ dsn = New_dsn dbPath readOnly.
Proof.
  unfold New.
  destruct (bool_decide (dbPath ≠ InMemoryDB)); [destruct (os_IsNotExist (os_Stat dbPath))|].
  - simpl. set_unfold. naive_solver.
  - pose proof (New_connect_opens dbPath (New_dsn dbPath readOnly) driverName dsn) as Hc.
    destruct (New_connect dbPath (New_dsn dbPath readOnly)) as [r evs]. simpl in *.
    set_unfold. naive_solver.
  - pose proof (New_connect_opens dbPath (New_dsn dbPath readOnly) driverName dsn) as Hc.
    destruct (New_connect dbPath (New_dsn dbPath readOnly)) as [r evs]. simpl in *.
    set_unfold. naive_solver.
Qed.

(** C1, as the code has it.  For a path other than ":memory:" and
    [readOnly = true] the database URI is "file:<path>?mode=ro" followed
    by the tuning parameters, so it carries [mode=ro], and this is the
    only URI [New] hands to [sql.Open].  For ":memory:" the URI is the
    bare ":memory:" whether [readOnly] is true or false. *)
Theorem New_read_only_dsn (dbPath : string) :
  (dbPath ≠ InMemoryDB →
   New_dsn dbPath true =
     "file:" +:+ dbPath +:+ "?mode=ro" +:+
     "&_journal_mode=off&_temp_store=memory&_synchronous=off&_cache_size=-64000&_mmap_size=0"
   ∧ strings.Contains (New_dsn dbPath true) "?mode=ro" = true
   ∧ (∀ driverName dsn,
        EvOpen driverName dsn ∈ (New dbPath true).2 →
        driverName = "sqlite" ∧ dsn = New_dsn dbPath true))
  ∧ (∀ readOnly, New_dsn InMemoryDB readOnly = InMemoryDB).
Proof.
  split; [|reflexivity].
  intros Hne. split; [|split].
  - rewrite (New_dsn_file dbPath true Hne). now rewrite !append_assoc.
  - rewrite (New_dsn_file dbPath true Hne). apply Contains_middle.
  - intros driverName dsn. apply New_opens.
Qed.

(** C8. A path other than ":memory:" that [os.Stat] reports as not
    existing: [New] fails with "database file does not exist: <path>"
    and all it did was the [os.Stat]: no [sql.Open] and no ping. *)
Theorem New_missing_file (dbPath : string) (readOnly : bool) :
  dbPath ≠ InMemoryDB →
  os_IsNotExist (os_Stat dbPath) = true →
  New dbPath readOnly =
    ((None, Some (errorString ("database file does not exist: " +:+ dbPath))), [EvStat dbPath])
  ∧ strings.Contains ("database file does not exist: " +:+ dbPath)
      "database file does not exist" = true
  ∧ (∀ ev, ev ∈ (New dbPath readOnly).2 →
       ev ≠ EvPing ∧ ev ≠ EvClose ∧ ∀ driverName dsn, ev ≠ EvOpen driverName dsn).
Proof.
  intros Hne Hstat.
  assert (HN : New dbPath readOnly =
    ((None, Some (errorString ("database file does not exist: " +:+ dbPath))), [EvStat dbPath])).
  { unfold New. rewrite (bool_decide_eq_true_2 _ Hne), Hstat. reflexivity. }
  split; [exact HN|]. split.
  - apply Contains_HasPrefix, HasPrefix_append_l. reflexivity.
  - rewrite HN. simpl. intros ev Hev. apply list_elem_of_singleton in Hev. subst ev.
    repeat split; discriminate.
Qed.

(** ** Registration *)

Lemma register_tool_dom (readWrite : bool) (acc : server.MCPServer * list string)
    (tool : mcp.Tool) :
  dom (server.srv_tools (server.register_tool readWrite acc tool).1) =
    if negb readWrite && bool_decide (mcp.tool_Name tool = "execute_statement")
    then dom (server.srv_tools acc.1)
    else {[mcp.tool_Name tool]} ∪ dom (server.srv_tools acc.1).
Proof.
  destruct acc as [s logged]. unfold server.register_tool.
  destruct (negb readWrite && bool_decide (mcp.tool_Name tool = "execute_statement"));
    [reflexivity|].
  simpl. apply dom_insert_L.
Qed.

(** C5. Whatever the server held before, [registerToolsAndResources]
    adds to its tools exactly [execute_query], [list_tables] and
    [describe_table] when [readWrite] is false, and these and
    [execute_statement] when it is true.  On the server that
    [createMCPServer] makes, [execute_statement] is therefore absent in
    read-only mode and present in read-write mode. *)
Theorem registerTools_gate (mcpServer : server.MCPServer) (readWrite : bool) :
  dom (server.srv_tools (server.registerToolsAndResources mcpServer readWrite).1) =
    dom (server.srv_tools mcpServer) ∪
    (if readWrite
     then {["execute_query"; "execute_statement"; "list_tables"; "describe_table"]}
     else {["execute_query"; "list_tables"; "describe_table"]})
  ∧ dom (server.srv_tools (server.registerToolsAndResources server.createMCPServer false).1) =
      {["execute_query"; "list_tables"; "describe_table"]}
  ∧ server.srv_tools (server.registerToolsAndResources server.createMCPServer false).1
      !! "execute_statement" = None
  ∧ dom (server.srv_tools (server.registerToolsAndResources server.createMCPServer true).1) =
      {["execute_query"; "execute_statement"; "list_tables"; "describe_table"]}.
Proof.
  assert (Hgen : ∀ s rw,
    dom (server.srv_tools (server.registerToolsAndResources s rw).1) =
      dom (server.srv_tools s) ∪
      (if rw
       then {["execute_query"; "execute_statement"; "list_tables"; "describe_table"]}
       else {["execute_query"; "list_tables"; "describe_table"]})).
  { intros s rw. unfold server.registerToolsAndResources.
    destruct (foldl (server.register_tool rw) (s, []) tools.GetTools) as [s' logged] eqn:Hfold.
    simpl. change s' with (s', logged).1. rewrite <- Hfold.
    unfold tools.GetTools. simpl foldl. rewrite !register_tool_dom.
    destruct rw; simpl; set_solver. }
  split; [apply Hgen|]. split; [|split].
  - rewrite Hgen. simpl. set_solver.
  - apply not_elem_of_dom. rewrite Hgen. simpl. set_solver.
  - rewrite Hgen. simpl. set_solver.
Qed.

End dispatch.

(** ** The properties on the test database *)

(** C1 as stated fails at the in-memory marker: with [readOnly = true]
    the URI that reaches [sql.Open] is the bare marker, the same as with
    [readOnly = false], and [mode=ro] does not occur in it. *)
Lemma New_memory_ignores_readOnly :
  (database.New (drv:=testutil.test_driver) (fs:=testutil.test_fs) ":memory:" true).2 =
    [database.EvPrintf ("Connecting to database: :memory:" +:+ newline);
     database.EvOpen "sqlite" ":memory:";
     database.EvPing]
  ∧ database.New_dsn ":memory:" true = ":memory:"
  ∧ strings.Contains (database.New_dsn ":memory:" true) "mode=ro" = false
  ∧ database.New_dsn ":memory:" true = database.New_dsn ":memory:" false.
Proof. repeat split; vm_compute; reflexivity. Qed.

(** The database file of the test suite, opened read-only. *)
Lemma New_read_only_dsn_witness :
  testutil.test_db_path ≠ database.InMemoryDB
  ∧ strings.Contains (database.New_dsn testutil.test_db_path true) "?mode=ro" = true
  ∧ (∀ driverName dsn,
       database.EvOpen driverName dsn ∈
         (database.New (drv:=testutil.test_driver) (fs:=testutil.test_fs)
            testutil.test_db_path true).2 →
       driverName = "sqlite" ∧ dsn = database.New_dsn testutil.test_db_path true).
Proof.
  assert (Hne : testutil.test_db_path ≠ database.InMemoryDB) by discriminate.
  split; [exact Hne|].
  exact (proj2 (proj1 (New_read_only_dsn (drv:=testutil.test_driver) (fs:=testutil.test_fs)
                         testutil.test_db_path) Hne)).
Defined.

(** The test "non-select query rejected". *)
Lemma execute_query_rejects_non_select_witness :
  tools.handleExecuteQuery (lib:=testutil.ascii_lib) (drv:=testutil.test_driver)
    testutil.insert_as_query testutil.CreateTestDB =
    ((Some (mcp.NewToolResultError "only SELECT queries are allowed with execute_query"), None),
     testutil.CreateTestDB).
Proof.
  refine (proj1 (execute_query_rejects_non_select (lib:=testutil.ascii_lib)
                   (drv:=testutil.test_driver) testutil.insert_as_query testutil.CreateTestDB
                   "INSERT INTO users (name, email, age) VALUES ('Charlie', 'charlie@example.com', 35)"
                   _ _ _)).
  - vm_compute; reflexivity.
  - discriminate.
  - vm_compute; reflexivity.
Defined.

(** The test "select query rejected". *)
Lemma execute_statement_rejects_select_witness :
  tools.handleExecuteStatement (lib:=testutil.ascii_lib) (drv:=testutil.test_driver)
    testutil.select_as_statement testutil.CreateTestDB =
    ((Some (mcp.NewToolResultError "SELECT queries should use execute_query tool"), None),
     testutil.CreateTestDB).
Proof.
  refine (proj1 (execute_statement_rejects_select (lib:=testutil.ascii_lib)
                   (drv:=testutil.test_driver) testutil.select_as_statement testutil.CreateTestDB
                   "SELECT * FROM users" _ _ _)).
  - vm_compute; reflexivity.
  - discriminate.
  - vm_compute; reflexivity.
Defined.

(** The same SELECT text offered to both tools. *)
Lemma select_gates_complementary_witness :
  (tools.handleExecuteQuery (lib:=testutil.ascii_lib) (drv:=testutil.test_driver)
     testutil.select_as_query testutil.CreateTestDB).1 =
    (Some (mcp.NewToolResultError "only SELECT queries are allowed with execute_query"), None)
  ↔ (tools.handleExecuteStatement (lib:=testutil.ascii_lib) (drv:=testutil.test_driver)
       testutil.select_as_statement testutil.CreateTestDB).1 ≠
      (Some (mcp.NewToolResultError "SELECT queries should use execute_query tool"), None).
Proof.
  refine (proj2 (proj2 (select_gates_complementary (lib:=testutil.ascii_lib)
                          (drv:=testutil.test_driver) testutil.select_as_query
                          testutil.select_as_statement testutil.CreateTestDB
                          testutil.CreateTestDB "SELECT * FROM users" _ _ _))).
  - discriminate.
  - vm_compute; reflexivity.
  - vm_compute; reflexivity.
Defined.

(** The test of an unknown tool. *)
Lemma HandleTool_soft_errors_witness :
  tools.HandleTool (lib:=testutil.ascii_lib) (drv:=testutil.test_driver)
    testutil.unknown_tool testutil.CreateTestDB =
    ((Some {| mcp.Content_of := [mcp.TextContent "Unknown tool: unknown_tool"];
              mcp.IsError := true |}, None), testutil.CreateTestDB).
Proof.
  refine (proj1 (proj2 (HandleTool_soft_errors (lib:=testutil.ascii_lib)
                          (drv:=testutil.test_driver) testutil.unknown_tool
                          testutil.CreateTestDB)) _).
  intros Hin. apply list_elem_of_In in Hin. simpl in Hin.
  destruct Hin as [Hin|[Hin|[Hin|[Hin|[]]]]]; discriminate Hin.
Defined.

(** The tests "non-existent table" and of an unknown resource. *)
Lemma HandleResource_hard_errors_witness :
  (resources.HandleResource (lib:=testutil.ascii_lib) (drv:=testutil.test_driver)
     {| mcp.URI := "schema://table/non_existent" |} testutil.CreateTestDB).1 =
    ([], Some (errorString "table 'non_existent' not found"))
  ∧ resources.HandleResource (lib:=testutil.ascii_lib) (drv:=testutil.test_driver)
      {| mcp.URI := "unknown://resource" |} testutil.CreateTestDB =
      (([], Some (errorString "unknown resource URI: unknown://resource")),
       testutil.CreateTestDB).
Proof.
  pose proof (HandleResource_hard_errors (lib:=testutil.ascii_lib) (drv:=testutil.test_driver)
                testutil.CreateTestDB) as [_ [Hmissing Hunknown]].
  split.
  - apply (Hmissing "non_existent"); [discriminate | vm_compute; reflexivity].
  - apply (Hunknown "unknown://resource"); [discriminate | vm_compute; reflexivity].
Defined.

(** The table [non_existent] through both paths. *)
Lemma empty_schema_is_not_found_witness :
  (tools.HandleTool (lib:=testutil.ascii_lib) (drv:=testutil.test_driver)
     testutil.describe_non_existent testutil.CreateTestDB).1 =
    (Some (mcp.NewToolResultError "Table 'non_existent' not found"), None)
  ∧ (resources.handleTableSchema (lib:=testutil.ascii_lib) (drv:=testutil.test_driver)
       "non_existent" testutil.CreateTestDB).1 =
      ([], Some (errorString "table 'non_existent' not found")).
Proof.
  assert (Hne : "non_existent" ≠ "") by discriminate.
  assert (Hempty : (database.GetTableSchema (drv:=testutil.test_driver) "non_existent"
                      testutil.CreateTestDB).1 = ([], None)) by (vm_compute; reflexivity).
  pose proof (empty_schema_is_not_found (lib:=testutil.ascii_lib) (drv:=testutil.test_driver)
                "non_existent" testutil.CreateTestDB Hne Hempty) as [Htool [Hres _]].
  split; [|exact Hres].
  apply (Htool testutil.describe_non_existent); vm_compute; reflexivity.
Defined.

(** The test "non-existent file". *)
Lemma New_missing_file_witness :
  database.New (drv:=testutil.test_driver) (fs:=testutil.test_fs) "/non/existent/path.db" false =
    ((None, Some (errorString "database file does not exist: /non/existent/path.db")),
     [database.EvStat "/non/existent/path.db"]).
Proof.
  refine (proj1 (New_missing_file (drv:=testutil.test_driver) (fs:=testutil.test_fs)
                   "/non/existent/path.db" false _ _)).
  - discriminate.
  - vm_compute; reflexivity.
Defined.

(** A table name that closes the parenthesis and goes on is part of the
    text the driver receives. *)
Example GetTableSchema_text_example :
  database.st_calls
    (database.GetTableSchema (drv:=testutil.test_driver) "users); DROP TABLE users; --"
       testutil.CreateTestDB).2 =
    [database.CallQuery "PRAGMA table_info(users); DROP TABLE users; --)" []].
Proof. vm_compute; reflexivity. Qed.

(** The round trip of the test suite: one insert, then the count. *)
Example insert_then_count :
  let insert :=
    testutil.request "execute_statement"
      [("statement", VString "INSERT INTO users (name, email, age) VALUES (?, ?, ?)");
       ("parameters", VSlice [VString "Charlie"; VString "c@x.com"; VString "35"])] in
  let count := testutil.request "execute_query" [("query", VString "SELECT COUNT(*) FROM users")] in
  let st1 := (tools.HandleTool (lib:=testutil.ascii_lib) (drv:=testutil.test_driver)
                insert testutil.CreateTestDB).2 in
  database.st_conn st1 =
    testutil.users_rows ++ [[VInt64 3; VString "Charlie"; VString "c@x.com"; VString "35"]]
  ∧ database.st_conn
      (tools.HandleTool (lib:=testutil.ascii_lib) (drv:=testutil.test_driver) count st1).2 =
    database.st_conn st1.
Proof. vm_compute. split; reflexivity. Qed.

(** * Further properties of the wrapper, the dispatchers and [main] *)

Section wrapper.
Context {lib : GoLib} {proc : Process} {drv : Driver} {fs : FileSystem}.

Import database.

Ltac step_M := unfold mbind, mret, M_bind, M_ret in *.

(** ** Rows *)

Lemma fill_row_dom (columns : list string) (i : nat) (values : list any) (row : Row) :
  dom (fill_row columns i values row) = dom row ∪ list_to_set columns.
Proof.
  revert i row. induction columns as [|col columns IH]; intros i row; simpl.
  - set_solver.
  - rewrite IH. unfold Row in *. rewrite dom_insert_L. set_solver.
Qed.

Lemma fill_row_other (columns : list string) (i : nat) (values : list any) (row : Row)
    (k : string) :
  k ∉ columns → fill_row columns i values row !! k = row !! k.
Proof.
  revert i row. induction columns as [|col columns IH]; intros i row Hk; simpl; [reflexivity|].
  apply not_elem_of_cons in Hk as [Hne Hk].
  rewrite IH by exact Hk. unfold Row in *. now rewrite lookup_insert_ne.
Qed.

Lemma fill_row_lookup (columns : list string) (i j : nat) (values : list any) (row : Row)
    (col : string) :
  NoDup columns →
  columns !! j = Some col →
  fill_row columns i values row !! col =
    Some (match default VNil (values !! (i + j)) with
          | VBytes b => VString b
          | v => v
          end).
Proof.
  revert i j row. induction columns as [|c columns IH]; intros i j row Hnd Hj; [discriminate|].
  apply NoDup_cons in Hnd as [Hc Hnd]. destruct j as [|j]; simpl in *.
  - injection Hj as ->. rewrite fill_row_other by exact Hc.
    unfold Row in *. rewrite lookup_insert_eq, Nat.add_0_r.
    now destruct (default VNil (values !! i)).
  - rewrite (IH (S i) j _ Hnd Hj). now rewrite Nat.add_succ_r.
Qed.

Lemma fill_row_no_bytes (columns : list string) (i : nat) (values : list any) (row : Row) :
  (∀ k b, row !! k ≠ Some (VBytes b)) →
  ∀ k b, fill_row columns i values row !! k ≠ Some (VBytes b).
Proof.
  revert i row. induction columns as [|col columns IH]; intros i row Hrow; simpl; [exact Hrow|].
  apply IH. intros k b. unfold Row in *. rewrite lookup_insert. case_decide; [|apply Hrow].
  destruct (default VNil (values !! i)); discriminate.
Qed.

(** The loop of [Query], as a whole. *)
Lemma scan_rows_ok (columns : list string) (pending : list (list any * option error))
    (acc results : list Row) :
  scan_rows columns pending acc = (results, None) →
  Forall (λ p, p.2 = None) pending
  ∧ results = acc ++ ((λ p, fill_row columns 0 p.1 ∅) <$> pending).
Proof.
  revert acc. induction pending as [|[values [err|]] pending IH]; intros acc Hs; simpl in Hs.
  - injection Hs as <-. split; [constructor | now rewrite app_nil_r].
  - discriminate.
  - apply IH in Hs as [Hall ->]. split; [now constructor|].
    now rewrite <- app_assoc.
Qed.


(** What a successful [Query] says about the cursor it read. *)
Lemma Query_ok_inv (query : string) (args : list any) (st : Store) (results : list Row) :
  (Query query args st).1 = (results, None) →
  ∃ rows columns,
    (conn_Query (st_conn st) query args).1 = inl rows
    ∧ Columns rows = (columns, None)
    ∧ Forall (λ p, p.2 = None) (scans rows)
    ∧ rows_Err rows = None
    ∧ results = (λ p, fill_row columns 0 p.1 ∅) <$> scans rows.
Proof.
  unfold Query, driver_Query. step_M.
  destruct (conn_Query (st_conn st) query args) as [[rows|err] c]; simpl; [|discriminate].
  destruct (Columns rows) as [columns [err|]] eqn:Hc; simpl; [discriminate|].
  destruct (scan_rows columns (scans rows) []) as [res [err|]] eqn:Hs; simpl; [discriminate|].
  destruct (rows_Err rows) eqn:He; simpl; [discriminate|].
  intros [= <-]. apply scan_rows_ok in Hs as [Hall ->].
  exists rows, columns. repeat split; try done.
Qed.


(** X2. A successful [Query] gives one row per record of the cursor, in
    the cursor's order. *)
Theorem Query_row_count (query : string) (args : list any) (st : Store)
    (rows : Rows) (results : list Row) :
  (conn_Query (st_conn st) query args).1 = inl rows →
  (Query query args st).1 = (results, None) →
  length results = length (scans rows)
  ∧ ∀ i values scan_err, scans rows !! i = Some (values, scan_err) →
      results !! i = Some (fill_row (Columns rows).1 0 values ∅).
Proof.
  intros Hq Hok. apply Query_ok_inv in Hok as (rows' & columns & Hq' & Hc & Hall & He & ->).
  rewrite Hq in Hq'. injection Hq' as <-. rewrite Hc. simpl. split.
  - now rewrite length_fmap.
  - intros i values scan_err Hi. rewrite list_lookup_fmap, Hi. reflexivity.
Qed.

(** X3. Every row of a successful [Query] has exactly the cursor's column
    names as its keys. *)
Theorem Query_row_keys (query : string) (args : list any) (st : Store)
    (rows : Rows) (results : list Row) (row : Row) :
  (conn_Query (st_conn st) query args).1 = inl rows →
  (Query query args st).1 = (results, None) →
  row ∈ results →
  dom row = list_to_set (Columns rows).1.
Proof.
  intros Hq Hok Hrow. apply Query_ok_inv in Hok as (rows' & columns & Hq' & Hc & Hall & He & ->).
  rewrite Hq in Hq'. injection Hq' as <-. rewrite Hc. simpl.
  apply list_elem_of_fmap in Hrow as [p [-> _]].
  rewrite fill_row_dom. set_solver.
Qed.

(** X4. No cell of a row that [Query] gives back is a byte slice: what
    the driver delivers as bytes arrives as text. *)
Theorem Query_no_bytes (query : string) (args : list any) (st : Store)
    (results : list Row) (row : Row) (col b : string) :
  (Query query args st).1 = (results, None) →
  row ∈ results →
  row !! col ≠ Some (VBytes b).
Proof.
  intros Hok Hrow. apply Query_ok_inv in Hok as (rows & columns & Hq & Hc & Hall & He & ->).
  apply list_elem_of_fmap in Hrow as [p [-> _]].
  apply fill_row_no_bytes. intros k b'.
  unfold Row. now rewrite lookup_empty.
Qed.

(** X5. When the column names are distinct, the cell of row [i] under
    column [j] is the value the driver scanned there, a byte slice being
    replaced by the text of the same bytes. *)
Theorem Query_cell (query : string) (args : list any) (st : Store)
    (rows : Rows) (results : list Row) (i j : nat) (values : list any)
    (scan_err : option error) (col : string) (v : any) :
  (conn_Query (st_conn st) query args).1 = inl rows →
  (Query query args st).1 = (results, None) →
  NoDup (Columns rows).1 →
  scans rows !! i = Some (values, scan_err) →
  (Columns rows).1 !! j = Some col →
  values !! j = Some v →
  ∃ row, results !! i = Some row
    ∧ row !! col = Some (match v with VBytes b => VString b | _ => v end).
Proof.
  intros Hq Hok Hnd Hi Hj Hv.
  apply Query_ok_inv in Hok as (rows' & columns & Hq' & Hc & Hall & He & ->).
  rewrite Hq in Hq'. injection Hq' as <-. rewrite Hc in Hnd, Hj. simpl in Hnd, Hj.
  eexists. split; [rewrite list_lookup_fmap, Hi; reflexivity|]. simpl.
  rewrite (fill_row_lookup _ 0 j values ∅ col Hnd Hj). simpl. rewrite Hv. simpl.
  now destruct v.
Qed.

(** ** The catalog *)

(** X6. When the driver answers the catalog query with one [name]
    column and the names as text or as byte slices, [GetTables] gives
    all of them back, in the driver's order. *)
Theorem GetTables_names (st : Store) (rows : Rows) (cells : list any) (names : list string) :
  (conn_Query (st_conn st)
     "SELECT name FROM sqlite_master WHERE type='table' AND name NOT LIKE 'sqlite_%' ORDER BY name"
     []).1 = inl rows →
  Columns rows = (["name"], None) →
  scans rows = (λ cell, ([cell], None)) <$> cells →
  rows_Err rows = None →
  Forall2 (λ cell name, cell = VString name ∨ cell = VBytes name) cells names →
  (GetTables st).1 = (names, None).
Proof.
  intros Hq Hc Hs He Hcells. unfold GetTables, Query, driver_Query. cbv zeta. step_M.
  destruct (conn_Query (st_conn st) _ []) as [r c]. simpl in Hq. subst r. simpl.
  rewrite Hc, Hs, He.
  assert (Hloop : ∀ acc,
    scan_rows ["name"] ((λ cell, ([cell], None)) <$> cells) acc =
      (acc ++ ((λ name, {["name" := VString name]}) <$> names), None)).
  { clear -Hcells. induction Hcells as [|cell name cells names Hcell _ IH]; intros acc; simpl.
    - now rewrite app_nil_r.
    - rewrite IH, <- app_assoc. simpl.
      destruct Hcell as [-> | ->]; reflexivity. }
  rewrite Hloop. simpl. f_equal.
  clear. induction names as [|name names IH]; [reflexivity|].
  rewrite fmap_cons. simpl. unfold Row. rewrite lookup_singleton_eq.
  f_equal. exact IH.
Qed.

(** ** The calls that reach the driver *)

Lemma GetTables_store (st : Store) :
  (GetTables st).2 =
    (Query "SELECT name FROM sqlite_master WHERE type='table' AND name NOT LIKE 'sqlite_%' ORDER BY name"
       [] st).2.
Proof.
  unfold GetTables. cbv zeta. step_M.
  destruct (Query _ [] st) as [[rows [err|]] st1]; reflexivity.
Qed.

Lemma handleExecuteQuery_run (request : mcp.CallToolRequest) (st : Store) :
  (tools.handleExecuteQuery request st).2 =
    if decide (mcp.ParseString request "query" "" = "") then st
    else if strings.HasPrefix
              (strings_TrimSpace (strings_ToUpper (mcp.ParseString request "query" "")))
              "SELECT"
    then (Query (mcp.ParseString request "query" "")
            (match mcp.Arguments request !! "parameters" with
             | Some (VSlice l) => l
             | _ => []
             end) st).2
    else st.
Proof.
  unfold tools.handleExecuteQuery, mcp.ParseArgument. cbv zeta.
  case_decide; [reflexivity|].
  destruct (strings.HasPrefix _ _); simpl; [|reflexivity]. step_M.
  assert (Hp : match match mcp.Arguments request !! "parameters" with
                     | Some v => v
                     | None => VNil
                     end with
               | VSlice paramSlice => paramSlice
               | _ => []
               end =
               match mcp.Arguments request !! "parameters" with
               | Some (VSlice l) => l
               | _ => []
               end).
  { destruct (mcp.Arguments request !! "parameters") as [[]|]; reflexivity. }
  rewrite Hp.
  destruct (Query _ _ st) as [[results [err|]] st1]; simpl; [reflexivity|].
  destruct (json_MarshalIndent _ _ _) as [jsonData [err|]]; reflexivity.
Qed.

Lemma handleExecuteStatement_run (request : mcp.CallToolRequest) (st : Store) :
  (tools.handleExecuteStatement request st).2 =
    if decide (mcp.ParseString request "statement" "" = "") then st
    else if strings.HasPrefix
              (strings_TrimSpace (strings_ToUpper (mcp.ParseString request "statement" "")))
              "SELECT"
    then st
    else (Execute (mcp.ParseString request "statement" "")
            (match mcp.Arguments request !! "parameters" with
             | Some (VSlice l) => l
             | _ => []
             end) st).2.
Proof.
  unfold tools.handleExecuteStatement, mcp.ParseArgument. cbv zeta.
  case_decide; [reflexivity|].
  destruct (strings.HasPrefix _ _); simpl; [reflexivity|]. step_M.
  assert (Hp : match match mcp.Arguments request !! "parameters" with
                     | Some v => v
                     | None => VNil
                     end with
               | VSlice paramSlice => paramSlice
               | _ => []
               end =
               match mcp.Arguments request !! "parameters" with
               | Some (VSlice l) => l
               | _ => []
               end).
  { destruct (mcp.Arguments request !! "parameters") as [[]|]; reflexivity. }
  rewrite Hp.
  destruct (Execute _ _ st) as [[rowsAffected [err|]] st1]; reflexivity.
Qed.

Lemma handleListTables_run (request : mcp.CallToolRequest) (st : Store) :
  (tools.handleListTables request st).2 = (GetTables st).2.
Proof.
  unfold tools.handleListTables. step_M.
  destruct (GetTables st) as [[tables [err|]] st1]; simpl; [reflexivity|].
  case_decide; [reflexivity|].
  destruct (json_MarshalIndent _ _ _) as [jsonData [err|]]; reflexivity.
Qed.

Lemma handleTablesList_run (st : Store) :
  (resources.handleTablesList st).2 = (GetTables st).2.
Proof.
  unfold resources.handleTablesList. step_M.
  destruct (GetTables st) as [[tables [err|]] st1]; simpl; [reflexivity|].
  destruct (json_MarshalIndent _ _ _) as [jsonData [err|]]; reflexivity.
Qed.

(** The calls a tool other than [execute_statement] adds to the record:
    none, or one [Query]. *)
Lemma HandleTool_reads (request : mcp.CallToolRequest) (st : Store) :
  mcp.Name request ≠ "execute_statement" →
  st_calls (tools.HandleTool request st).2 = st_calls st
  ∨ ∃ query args, st_calls (tools.HandleTool request st).2 = st_calls st ++ [CallQuery query args].
Proof.
  intros Hn. unfold tools.HandleTool. cbv zeta.
  case_decide.
  { rewrite handleExecuteQuery_run. case_decide; [now left|].
    destruct (strings.HasPrefix _ _); [|now left].
    rewrite Query_store. simpl. eauto. }
  case_decide; [contradiction|].
  case_decide.
  { rewrite handleListTables_run, GetTables_store, Query_store. simpl. eauto. }
  case_decide.
  { rewrite handleDescribeTable_store. case_decide; [now left|].
    rewrite GetTableSchema_store. simpl. eauto. }
  now left.
Qed.

(** The tools a fresh server holds after registration. *)
Lemma registered_tool (readWrite : bool) (name : string) (t : server.ServerTool) :
  server.srv_tools (server.registerToolsAndResources server.createMCPServer readWrite).1
    !! name = Some t →
  server.Handler t = tools.HandleTool
  ∧ mcp.tool_Name (server.Tool t) = name
  ∧ server.Tool t ∈ tools.GetTools
  ∧ (readWrite = false → name ≠ "execute_statement").
Proof.
  unfold server.registerToolsAndResources, server.createMCPServer, server.NewMCPServer,
    tools.GetTools.
  destruct readWrite; simpl; intros Ht;
    repeat (rewrite lookup_insert in Ht; case_decide;
            [injection Ht as <-; subst name; simpl;
             repeat split;
             first [ reflexivity
                   | progress repeat first [apply list_elem_of_here | apply list_elem_of_further]
                   | intros Hrw; first [discriminate Hrw | discriminate] ]|]);
    rewrite lookup_empty in Ht; discriminate.
Qed.

Lemma registered_execute_query (readWrite : bool) :
  server.srv_tools (server.registerToolsAndResources server.createMCPServer readWrite).1
    !! "execute_query" =
    Some {| server.Tool := tools.executeQueryTool; server.Handler := tools.HandleTool |}.
Proof.
  unfold server.registerToolsAndResources, server.createMCPServer, server.NewMCPServer,
    tools.GetTools.
  destruct readWrite; simpl;
    repeat (rewrite lookup_insert_ne by discriminate); apply lookup_insert_eq.
Qed.

(** X7. Under its own name, no tool that a read-only server has
    registered executes a statement: the handler leaves the record of
    driver calls as it was or adds one [Query] to it, never an [Exec]. *)
Theorem read_only_tools_never_exec (name : string) (t : server.ServerTool)
    (request : mcp.CallToolRequest) (st : Store) :
  server.srv_tools (server.registerToolsAndResources server.createMCPServer false).1
    !! name = Some t →
  mcp.Name request = name →
  st_calls (server.Handler t request st).2 = st_calls st
  ∨ ∃ query args, st_calls (server.Handler t request st).2 = st_calls st ++ [CallQuery query args].
Proof.
  intros Ht Hn. apply registered_tool in Ht as (-> & _ & _ & Hro).
  apply HandleTool_reads. rewrite Hn. now apply Hro.
Qed.

(** X8. Reading a resource never executes a statement and never binds a
    parameter: the record of driver calls stays as it was or gains one
    [Query] with no arguments. *)
Theorem HandleResource_reads (request : mcp.ReadResourceRequest) (st : Store) :
  st_calls (resources.HandleResource request st).2 = st_calls st
  ∨ ∃ query, st_calls (resources.HandleResource request st).2 = st_calls st ++ [CallQuery query []].
Proof.
  unfold resources.HandleResource. cbv zeta.
  case_decide.
  { rewrite handleTablesList_run, GetTables_store, Query_store. simpl. eauto. }
  destruct (strings.HasPrefix _ _); [|now left].
  rewrite handleTableSchema_store. case_decide; [now left|].
  rewrite GetTableSchema_store. simpl. eauto.
Qed.

(** X9. Once its gate is passed, [execute_query] hands the query to the
    driver exactly as it came, neither trimmed nor upper-cased, in a
    single [Query]; the arguments are the elements of [parameters] when
    that is an array, and none when it is missing or anything else. *)
Theorem execute_query_verbatim (request : mcp.CallToolRequest) (st : Store) :
  mcp.ParseString request "query" "" ≠ "" →
  strings.HasPrefix (strings_TrimSpace (strings_ToUpper (mcp.ParseString request "query" "")))
    "SELECT" = true →
  st_calls (tools.handleExecuteQuery request st).2 =
    st_calls st ++
    [CallQuery (mcp.ParseString request "query" "")
       (match mcp.Arguments request !! "parameters" with
        | Some (VSlice l) => l
        | _ => []
        end)].
Proof.
  intros Hne Hgate. rewrite handleExecuteQuery_run.
  case_decide; [contradiction|]. rewrite Hgate. now rewrite Query_store.
Qed.

(** X10. Once its gate is passed, [execute_statement] hands the statement
    to the driver exactly as it came in a single [Exec], with the elements
    of [parameters] when that is an array and no argument otherwise, and
    the connection is left in the state this [Exec] produced. *)
Theorem execute_statement_verbatim (request : mcp.CallToolRequest) (st : Store) :
  mcp.ParseString request "statement" "" ≠ "" →
  strings.HasPrefix (strings_TrimSpace (strings_ToUpper (mcp.ParseString request "statement" "")))
    "SELECT" = false →
  (tools.handleExecuteStatement request st).2 =
    {| st_conn :=
         (conn_Exec (st_conn st) (mcp.ParseString request "statement" "")
            (match mcp.Arguments request !! "parameters" with
             | Some (VSlice l) => l
             | _ => []
             end)).2;
       st_calls :=
         st_calls st ++
         [CallExec (mcp.ParseString request "statement" "")
            (match mcp.Arguments request !! "parameters" with
             | Some (VSlice l) => l
             | _ => []
             end)] |}.
Proof.
  intros Hne Hgate. rewrite handleExecuteStatement_run.
  case_decide; [contradiction|]. rewrite Hgate. now rewrite Execute_store.
Qed.

(** ** The shape of the answers *)

Lemma HasPrefix_TrimPrefix (s prefix : string) :
  strings.HasPrefix s prefix = true → prefix +:+ strings.TrimPrefix s prefix = s.
Proof.
  intros Hp. unfold strings.TrimPrefix. rewrite Hp. revert s Hp.
  induction prefix as [|c prefix IH]; intros s Hp; [reflexivity|].
  destruct s as [|d s]; [discriminate|]. simpl in Hp.
  destruct (Ascii.eqb c d) eqn:Hcd; [|discriminate].
  apply Ascii.eqb_eq in Hcd as ->. rewrite append_String. simpl. now rewrite IH.
Qed.

(** X11. An empty database: [list_tables] answers with the plain text
    "No tables found in the database", which is not an error and involves
    no JSON encoding, while the [schema://tables] resource has no such
    case and gives the JSON encoding of the nil list. *)
Theorem no_tables (request : mcp.CallToolRequest) (st : Store) :
  (GetTables st).1 = ([], None) →
  (tools.handleListTables request st).1 =
    (Some {| mcp.Content_of := [mcp.TextContent "No tables found in the database"];
             mcp.IsError := false |}, None)
  ∧ (resources.handleTablesList st).1 =
      match json_MarshalIndent (JStrings []) "" "  " with
      | (_, Some err) => ([], Some (Errorf_w "failed to marshal tables: " err))
      | (jsonData, None) =>
          ([mcp.TextResourceContents "schema://tables" "application/json" jsonData], None)
      end.
Proof.
  intros Hempty. unfold tools.handleListTables, resources.handleTablesList. step_M.
  destruct (GetTables st) as [r st1]. simpl in Hempty. subst r. simpl. split; [reflexivity|].
  destruct (json_MarshalIndent (JStrings []) "" "  ") as [jsonData [err|]]; reflexivity.
Qed.

(** X12. A resource read gives either an error and no contents, or no
    error and exactly one JSON text item whose URI is the URI that was
    asked for. *)
Theorem HandleResource_one_item (request : mcp.ReadResourceRequest) (st : Store) :
  (∃ err, (resources.HandleResource request st).1 = ([], Some err))
  ∨ (∃ text,
       (resources.HandleResource request st).1 =
         ([mcp.TextResourceContents (mcp.URI request) "application/json" text], None)).
Proof.
  destruct request as [uri]. unfold resources.HandleResource.
  cbv beta iota zeta delta [mcp.URI].
  case_decide as Huri.
  - subst uri. unfold resources.handleTablesList. step_M.
    destruct (GetTables st) as [[tables [err|]] st1]; simpl; [eauto|].
    destruct (json_MarshalIndent _ _ _) as [jsonData [err|]]; simpl; eauto.
  - destruct (strings.HasPrefix uri "schema://table/") eqn:Hp; [|simpl; eauto].
    unfold resources.handleTableSchema.
    case_decide; [simpl; eauto|]. step_M.
    destruct (GetTableSchema _ st) as [[schema [err|]] st1]; simpl; [eauto|].
    case_decide; [simpl; eauto|].
    destruct (json_MarshalIndent _ _ _) as [jsonData [err|]]; simpl; [eauto|].
    right. exists jsonData. now rewrite (HasPrefix_TrimPrefix uri "schema://table/" Hp).
Qed.

(** The message of any error of the two resource handlers starts with
    [f] or [t]. *)
Lemma handleTablesList_error (st : Store) (err : error) :
  (resources.handleTablesList st).1.2 = Some err →
  strings.HasPrefix (Error err) "unknown" = false.
Proof.
  unfold resources.handleTablesList. step_M.
  destruct (GetTables st) as [[tables [e|]] st1]; simpl; [now intros [= <-]|].
  destruct (json_MarshalIndent _ _ _) as [jsonData [e|]]; simpl; [now intros [= <-]|discriminate].
Qed.

Lemma handleTableSchema_error (tableName : string) (st : Store) (err : error) :
  (resources.handleTableSchema tableName st).1.2 = Some err →
  strings.HasPrefix (Error err) "unknown" = false.
Proof.
  unfold resources.handleTableSchema.
  case_decide; [now intros [= <-]|]. step_M.
  destruct (GetTableSchema _ st) as [[schema [e|]] st1]; simpl; [now intros [= <-]|].
  case_decide; [now intros [= <-]|].
  destruct (json_MarshalIndent _ _ _) as [jsonData [e|]]; simpl; [now intros [= <-]|discriminate].
Qed.

(** X13. The error "unknown resource URI: <uri>" is given for exactly
    the URIs that are neither "schema://tables" nor start with
    "schema://table/": no failure of a known resource is reported under
    that message. *)
Theorem HandleResource_unknown_iff (request : mcp.ReadResourceRequest) (st : Store) :
  (resources.HandleResource request st).1.2 =
    Some (errorString ("unknown resource URI: " +:+ mcp.URI request))
  ↔ mcp.URI request ≠ "schema://tables"
    ∧ strings.HasPrefix (mcp.URI request) "schema://table/" = false.
Proof.
  destruct request as [uri]. unfold resources.HandleResource.
  cbv beta iota zeta delta [mcp.URI].
  case_decide as Huri.
  - split; [|intros [Hne _]; contradiction].
    intros Herr. apply handleTablesList_error in Herr. discriminate Herr.
  - destruct (strings.HasPrefix uri "schema://table/") eqn:Hp.
    + split; [|intros [_ Hf]; discriminate].
      intros Herr. apply handleTableSchema_error in Herr. discriminate Herr.
    + simpl. split; [now intros _ | reflexivity].
Qed.

(** ** The tool list and the dispatcher *)

(** Every answer of the four handlers is a single text that does not
    start with [U]. *)
Lemma handleExecuteQuery_answer (request : mcp.CallToolRequest) (st : Store) :
  ∃ text flag,
    (tools.handleExecuteQuery request st).1 =
      (Some {| mcp.Content_of := [mcp.TextContent text]; mcp.IsError := flag |}, None)
    ∧ strings.HasPrefix text "U" = false.
Proof.
  unfold tools.handleExecuteQuery. cbv zeta.
  case_decide; [eexists _, _; split; reflexivity|].
  destruct (strings.HasPrefix _ _); simpl; [|eexists _, _; split; reflexivity]. step_M.
  destruct (Query _ _ st) as [[results [err|]] st1]; [eexists _, _; split; reflexivity|].
  destruct (json_MarshalIndent _ _ _) as [jsonData [err|]]; eexists _, _; split; reflexivity.
Qed.

Lemma handleExecuteStatement_answer (request : mcp.CallToolRequest) (st : Store) :
  ∃ text flag,
    (tools.handleExecuteStatement request st).1 =
      (Some {| mcp.Content_of := [mcp.TextContent text]; mcp.IsError := flag |}, None)
    ∧ strings.HasPrefix text "U" = false.
Proof.
  unfold tools.handleExecuteStatement. cbv zeta.
  case_decide; [eexists _, _; split; reflexivity|].
  destruct (strings.HasPrefix _ _); [eexists _, _; split; reflexivity|]. step_M.
  destruct (Execute _ _ st) as [[rowsAffected [err|]] st1]; eexists _, _; split; reflexivity.
Qed.

Lemma handleListTables_answer (request : mcp.CallToolRequest) (st : Store) :
  ∃ text flag,
    (tools.handleListTables request st).1 =
      (Some {| mcp.Content_of := [mcp.TextContent text]; mcp.IsError := flag |}, None)
    ∧ strings.HasPrefix text "U" = false.
Proof.
  unfold tools.handleListTables. step_M.
  destruct (GetTables st) as [[tables [err|]] st1]; [eexists _, _; split; reflexivity|].
  case_decide; [eexists _, _; split; reflexivity|].
  destruct (json_MarshalIndent _ _ _) as [jsonData [err|]]; eexists _, _; split; reflexivity.
Qed.

Lemma handleDescribeTable_answer (request : mcp.CallToolRequest) (st : Store) :
  ∃ text flag,
    (tools.handleDescribeTable request st).1 =
      (Some {| mcp.Content_of := [mcp.TextContent text]; mcp.IsError := flag |}, None)
    ∧ strings.HasPrefix text "U" = false.
Proof.
  unfold tools.handleDescribeTable. cbv zeta.
  case_decide; [eexists _, _; split; reflexivity|]. step_M.
  destruct (GetTableSchema _ st) as [[schema [err|]] st1]; [eexists _, _; split; reflexivity|].
  case_decide; [eexists _, _; split; reflexivity|].
  destruct (json_MarshalIndent _ _ _) as [jsonData [err|]]; eexists _, _; split; reflexivity.
Qed.

(** X14. The dispatcher answers "Unknown tool: <name>" for exactly the
    names that [GetTools] does not list: every listed tool has a handler
    and no handler's answer is mistaken for the unknown-tool error. *)
Theorem HandleTool_unknown_iff (request : mcp.CallToolRequest) (st : Store) :
  (tools.HandleTool request st).1 =
    (Some (mcp.NewToolResultError ("Unknown tool: " +:+ mcp.Name request)), None)
  ↔ mcp.Name request ∉ mcp.tool_Name <$> tools.GetTools.
Proof.
  assert (Hknown : ∀ r : option mcp.CallToolResult * option error,
    (∃ text flag,
       r = (Some {| mcp.Content_of := [mcp.TextContent text]; mcp.IsError := flag |}, None)
       ∧ strings.HasPrefix text "U" = false) →
    r ≠ (Some (mcp.NewToolResultError ("Unknown tool: " +:+ mcp.Name request)), None)).
  { intros r (text & flag & -> & Hu) [= -> _]. discriminate Hu. }
  split.
  - intros Hr Hin. revert Hr. unfold tools.HandleTool. cbv zeta.
    case_decide; [apply Hknown, handleExecuteQuery_answer|].
    case_decide; [apply Hknown, handleExecuteStatement_answer|].
    case_decide; [apply Hknown, handleListTables_answer|].
    case_decide; [apply Hknown, handleDescribeTable_answer|].
    simpl in Hin. set_unfold. naive_solver.
  - intros Hn. now rewrite HandleTool_unknown.
Qed.

(** X15. Every argument that the input schema of a listed tool marks as
    required is enforced by the dispatcher: when it is missing or empty
    the answer is the soft error "<argument> parameter is required" and
    the store is untouched. *)
Theorem required_arguments_enforced (tool : mcp.Tool) (p : mcp.Property)
    (request : mcp.CallToolRequest) (st : Store) :
  tool ∈ tools.GetTools →
  p ∈ mcp.tool_InputSchema tool →
  mcp.prop_required p = true →
  mcp.Name request = mcp.tool_Name tool →
  mcp.ParseString request (mcp.prop_name p) "" = "" →
  tools.HandleTool request st =
    ((Some (mcp.NewToolResultError (mcp.prop_name p +:+ " parameter is required")), None), st).
Proof.
  intros Htool Hp Hreq Hname Hempty. unfold tools.GetTools in Htool.
  repeat (apply elem_of_cons in Htool as [-> | Htool]);
    [| | | | now apply elem_of_nil in Htool]; simpl in Hp, Hname;
    repeat (apply elem_of_cons in Hp as [-> | Hp]); try (now apply elem_of_nil in Hp);
    try discriminate Hreq; simpl in Hempty.
  - rewrite (HandleTool_execute_query request Hname).
    unfold tools.handleExecuteQuery. cbv zeta. case_decide; [reflexivity | contradiction].
  - rewrite (HandleTool_execute_statement request Hname).
    unfold tools.handleExecuteStatement. cbv zeta. case_decide; [reflexivity | contradiction].
  - rewrite (HandleTool_describe_table request Hname).
    unfold tools.handleDescribeTable. cbv zeta. case_decide; [reflexivity | contradiction].
Qed.

(** ** Opening and closing *)

Lemma New_handle_or_error_aux (dbPath : string) (readOnly : bool) :
  (∃ db, (New dbPath readOnly).1 = (Some db, None) ∧ path db = dbPath)
  ∨ (∃ err, (New dbPath readOnly).1 = (None, Some err)).
Proof.
  unfold New, New_connect.
  destruct (bool_decide (dbPath ≠ InMemoryDB)); [destruct (os_IsNotExist (os_Stat dbPath))|];
    simpl; eauto;
    (destruct (sql_Open "sqlite" (New_dsn dbPath readOnly)) as [c|err]; simpl; [|eauto];
     destruct (conn_Ping c); [destruct (conn_Close c)|]; simpl; eauto).
Qed.

(** X16. [New] gives back either a handle or an error, never both and
    never neither, and [Path] of the handle is the path it was opened
    with. *)
Theorem New_handle_or_error (dbPath : string) (readOnly : bool) :
  (∃ db, (New dbPath readOnly).1 = (Some db, None) ∧ Path db = dbPath)
  ∨ (∃ err, (New dbPath readOnly).1 = (None, Some err)).
Proof. apply New_handle_or_error_aux. Qed.

(** X17. A handle that [New] gives back has been pinged and is still
    open, and a handle whose ping failed is closed before the error is
    returned: no connection is left open behind an error. *)
Theorem New_closes_after_failed_ping (dbPath : string) (readOnly : bool) :
  match (New dbPath readOnly).1.1 with
  | Some _ => EvPing ∈ (New dbPath readOnly).2 ∧ EvClose ∉ (New dbPath readOnly).2
  | None => EvPing ∈ (New dbPath readOnly).2 → EvClose ∈ (New dbPath readOnly).2
  end.
Proof.
  unfold New, New_connect.
  destruct (bool_decide (dbPath ≠ InMemoryDB)); [destruct (os_IsNotExist (os_Stat dbPath))|];
    simpl; try (set_unfold; naive_solver);
    (destruct (sql_Open "sqlite" (New_dsn dbPath readOnly)) as [c|err]; simpl;
     [destruct (conn_Ping c); [destruct (conn_Close c)|]|]; simpl;
     set_unfold; naive_solver).
Qed.


(** ** [main] *)

Lemma initializeDatabase_events (dbPath : string) (readWrite : bool) :
  (main.initializeDatabase dbPath readWrite).2 =
    if bool_decide (dbPath ≠ ":memory:") && os_IsNotExist (os_Stat dbPath) then [EvStat dbPath]
    else (if bool_decide (dbPath ≠ ":memory:") then [EvStat dbPath] else []) ++
         (New dbPath (negb readWrite)).2.
Proof.
  unfold main.initializeDatabase.
  destruct (bool_decide (dbPath ≠ ":memory:")); [destruct (os_IsNotExist (os_Stat dbPath))|];
    simpl; try reflexivity;
    destruct (New dbPath (negb readWrite)) as [[[db|] [err|]] evs]; reflexivity.
Qed.

(** X19. The server's flag reaches the driver inverted into the mode of
    the URI: for a database file, every URI that [initializeDatabase]
    opens is "file:<path>?mode=rwc..." when [readWrite] is true and
    "file:<path>?mode=ro..." when it is false. *)
Theorem initializeDatabase_mode (dbPath : string) (readWrite : bool) (driverName dsn : string) :
  dbPath ≠ ":memory:" →
  EvOpen driverName dsn ∈ (main.initializeDatabase dbPath readWrite).2 →
  dsn =
    "file:" +:+ dbPath +:+ (if readWrite then "?mode=rwc" else "?mode=ro") +:+
    "&_journal_mode=off&_temp_store=memory&_synchronous=off&_cache_size=-64000&_mmap_size=0".
Proof.
  intros Hne Hev. rewrite initializeDatabase_events in Hev.
  rewrite (bool_decide_eq_true_2 _ Hne) in Hev. simpl in Hev.
  assert (Hin : EvOpen driverName dsn ∈ (New dbPath (negb readWrite)).2).
  { destruct (os_IsNotExist (os_Stat dbPath)).
    - apply list_elem_of_singleton in Hev. discriminate Hev.
    - apply elem_of_cons in Hev as [Hev|Hev]; [discriminate Hev | exact Hev]. }
  apply New_opens in Hin as [_ ->].
  rewrite (New_dsn_file dbPath (negb readWrite) Hne), !append_assoc.
  now destruct readWrite.
Qed.

(** X20. [initializeDatabase] ends in one of three ways: a handle, not
    nil, for the path it was given; the fatal message "Database file does not exist:
    <path>" after the single [os.Stat], before [New] is called; or the
    fatal message "Failed to connect to database: " followed by the
    error of [New]. *)
Theorem initializeDatabase_outcome (dbPath : string) (readWrite : bool) :
  (∃ db, (main.initializeDatabase dbPath readWrite).1 = inl (Some db) ∧ Path db = dbPath)
  ∨ (dbPath ≠ ":memory:"
     ∧ os_IsNotExist (os_Stat dbPath) = true
     ∧ main.initializeDatabase dbPath readWrite =
         (inr ("Database file does not exist: " +:+ dbPath), [EvStat dbPath]))
  ∨ (∃ err, (New dbPath (negb readWrite)).1 = (None, Some err)
       ∧ (main.initializeDatabase dbPath readWrite).1 =
           inr ("Failed to connect to database: " +:+ Error err)).
Proof.
  unfold main.initializeDatabase.
  destruct (bool_decide (dbPath ≠ ":memory:")) eqn:Hmem;
    [destruct (os_IsNotExist (os_Stat dbPath)) eqn:Hstat|]; simpl.
  - right; left. apply bool_decide_eq_true_1 in Hmem. repeat split; done.
  - destruct (New_handle_or_error_aux dbPath (negb readWrite)) as [(db & Hn & Hp)|(err & Hn)];
      destruct (New dbPath (negb readWrite)) as [r evs]; simpl in Hn; subst r; simpl; eauto.
  - destruct (New_handle_or_error_aux dbPath (negb readWrite)) as [(db & Hn & Hp)|(err & Hn)];
      destruct (New dbPath (negb readWrite)) as [r evs]; simpl in Hn; subst r; simpl; eauto.
Qed.

Lemma register_tool_resources (readWrite : bool) (acc : server.MCPServer * list string)
    (tool : mcp.Tool) :
  server.srv_resources (server.register_tool readWrite acc tool).1 = server.srv_resources acc.1.
Proof.
  destruct acc as [s logged]. unfold server.register_tool.
  now destruct (negb readWrite && bool_decide (mcp.tool_Name tool = "execute_statement")).
Qed.

Lemma register_tool_templates (readWrite : bool) (acc : server.MCPServer * list string)
    (tool : mcp.Tool) :
  server.srv_resourceTemplates (server.register_tool readWrite acc tool).1 =
    server.srv_resourceTemplates acc.1.
Proof.
  destruct acc as [s logged]. unfold server.register_tool.
  now destruct (negb readWrite && bool_decide (mcp.tool_Name tool = "execute_statement")).
Qed.

(** The names of the tools a server holds after registration. *)
Lemma registered_names (mcpServer : server.MCPServer) (readWrite : bool) :
  dom (server.srv_tools (server.registerToolsAndResources mcpServer readWrite).1) =
    dom (server.srv_tools mcpServer) ∪
    (if readWrite
     then {["execute_query"; "execute_statement"; "list_tables"; "describe_table"]}
     else {["execute_query"; "list_tables"; "describe_table"]}).
Proof.
  unfold server.registerToolsAndResources.
  destruct (foldl (server.register_tool readWrite) (mcpServer, []) tools.GetTools)
    as [s' logged] eqn:Hfold.
  simpl. change s' with (s', logged).1. rewrite <- Hfold.
  unfold tools.GetTools. simpl foldl. rewrite !register_tool_dom.
  destruct readWrite; simpl; set_solver.
Qed.

(** X21. Whatever the mode and whatever the server held before,
    registration adds the resource "schema://tables" and the template
    "schema://table/{name}", nothing else, each served by
    [HandleResource]. *)
Theorem resources_registered (mcpServer : server.MCPServer) (readWrite : bool) :
  server.srv_resources (server.registerToolsAndResources mcpServer readWrite).1 =
    <["schema://tables" :=
       ({| mcp.res_URI := "schema://tables";
           mcp.res_Name := "Database Tables";
           mcp.res_Description := "List of all tables in the SQLite database";
           mcp.res_MIMEType := "application/json" |},
        resources.HandleResource)]> (server.srv_resources mcpServer)
  ∧ server.srv_resourceTemplates (server.registerToolsAndResources mcpServer readWrite).1 =
      <["schema://table/{name}" :=
         ({| mcp.tmpl_URITemplate := "schema://table/{name}";
             mcp.tmpl_Name := "Table Schema";
             mcp.tmpl_Description := "Schema information for a specific table";
             mcp.tmpl_MIMEType := "application/json" |},
          resources.HandleResource)]> (server.srv_resourceTemplates mcpServer).
Proof.
  unfold server.registerToolsAndResources.
  destruct (foldl (server.register_tool readWrite) (mcpServer, []) tools.GetTools)
    as [s' logged] eqn:Hfold.
  assert (Hres : server.srv_resources s' = server.srv_resources mcpServer
                 ∧ server.srv_resourceTemplates s' = server.srv_resourceTemplates mcpServer).
  { change s' with (s', logged).1. rewrite <- Hfold. unfold tools.GetTools. cbn [foldl].
    split.
    - now rewrite !register_tool_resources.
    - now rewrite !register_tool_templates. }
  destruct Hres as [Hr Ht]. simpl. now rewrite Hr, Ht.
Qed.

(** X22. The line "Available tools: ..." that [logServerStart] writes
    names exactly the tools that registration put on a fresh server, in
    read-only mode as in read-write mode. *)
Theorem logged_tools_are_registered (addr dbPath : string) (readWrite : bool)
    (transport : string) (tool : mcp.Tool) :
  tool ∈ tools.GetTools →
  ∃ line,
    main.logServerStart addr dbPath readWrite transport !! 2 = Some line
    ∧ strings.HasPrefix line "Available tools: " = true
    ∧ (strings.Contains line (mcp.tool_Name tool) = true
       ↔ mcp.tool_Name tool ∈
           dom (server.srv_tools
                  (server.registerToolsAndResources server.createMCPServer readWrite).1)).
Proof.
  intros Htool. rewrite registered_names. unfold tools.GetTools in Htool.
  destruct readWrite; simpl; eexists; (split; [reflexivity|]); (split; [reflexivity|]);
    repeat (apply elem_of_cons in Htool as [-> | Htool]);
    try (now apply elem_of_nil in Htool);
    simpl; (split; [intros Hc; try discriminate Hc; set_solver | intros Hin; try reflexivity]).
  exfalso. set_unfold. naive_solver.
Qed.


(** X24. [getDefaultTransport] gives "sse" or "streamable-http" and
    nothing else, whatever MCP_TRANSPORT holds; it is "streamable-http"
    when the variable is unset or empty and whenever a line is logged. *)
Theorem getDefaultTransport_valid :
  (main.getDefaultTransport.1 = "sse" ∨ main.getDefaultTransport.1 = "streamable-http")
  ∧ (os_Getenv "MCP_TRANSPORT" = "" → main.getDefaultTransport = ("streamable-http", []))
  ∧ (main.getDefaultTransport.2 ≠ [] → main.getDefaultTransport.1 = "streamable-http").
Proof.
  unfold main.getDefaultTransport, main.transportSSE, main.transportStreamableHTTP. cbv zeta.
  case_decide as Hset; [repeat split; auto|].
  destruct (bool_decide (strings_ToLower (strings_TrimSpace (os_Getenv "MCP_TRANSPORT")) ≠ "sse"))
    eqn:Hsse; simpl.
  - destruct (bool_decide
                (strings_ToLower (strings_TrimSpace (os_Getenv "MCP_TRANSPORT"))
                   ≠ "streamable-http")) eqn:Hhttp; simpl.
    + repeat split; auto; try contradiction.
    + apply bool_decide_eq_false_1 in Hhttp. apply dec_stable in Hhttp.
      repeat split; auto; try contradiction; try (intros Hl; now contradiction Hl).
  - apply bool_decide_eq_false_1 in Hsse. apply dec_stable in Hsse.
    repeat split; auto; try contradiction; try (intros Hl; now contradiction Hl).
Qed.

(** X25. When [strings.ToLower] leaves the two lower-case transport names
    as they are, the transport that [getDefaultTransport] gives is one
    that [runServer] accepts: its switch creates a server and does not
    reach [log.Fatalf], whatever MCP_TRANSPORT holds. *)
Theorem default_transport_accepted :
  strings_ToLower "sse" = "sse" →
  strings_ToLower "streamable-http" = "streamable-http" →
  (main.getDefaultTransport.1 = "sse"
   ∧ main.runServer_transport main.getDefaultTransport.1 =
       (inl main.SSEServer, ["Using SSE transport"]))
  ∨ (main.getDefaultTransport.1 = "streamable-http"
     ∧ main.runServer_transport main.getDefaultTransport.1 =
         (inl main.StreamableHTTPServer, ["Using streamable-http transport"])).
Proof.
  intros Hsse Hhttp.
  assert (Hv : main.getDefaultTransport.1 = "sse"
               ∨ main.getDefaultTransport.1 = "streamable-http").
  { unfold main.getDefaultTransport, main.transportSSE, main.transportStreamableHTTP. cbv zeta.
    case_decide; [now right|].
    destruct (bool_decide (_ ≠ "sse")) eqn:Hs; simpl.
    - destruct (bool_decide (_ ≠ "streamable-http")) eqn:Hh; simpl; [now right|].
      apply bool_decide_eq_false_1 in Hh. apply dec_stable in Hh. now right.
    - apply bool_decide_eq_false_1 in Hs. apply dec_stable in Hs. now left. }
  destruct Hv as [Hv|Hv]; [left | right]; (split; [exact Hv|]); rewrite Hv;
    unfold main.runServer_transport, main.transportSSE, main.transportStreamableHTTP; cbv zeta.
  - rewrite Hsse. case_decide; [discriminate|]. case_decide; [reflexivity | contradiction].
  - rewrite Hhttp. case_decide; [reflexivity | contradiction].
Qed.

End wrapper.

(** ** The further properties on the test database *)


(** The catalog of two tables: two records, two rows. *)
Lemma Query_row_count_witness :
  ∃ results,
    (database.Query (drv:=testenv.names_driver) "SELECT name FROM sqlite_master" []
       (testenv.a_store testenv.names_driver tt)).1 = (results, None)
    ∧ length results = 2.
Proof.
  eexists. split; [reflexivity|].
  refine (proj1 (Query_row_count (drv:=testenv.names_driver) "SELECT name FROM sqlite_master" []
                   (testenv.a_store testenv.names_driver tt)
                   {| Columns := (["name"], None);
                      scans := [([VBytes "products"], None); ([VString "users"], None)];
                      rows_Err := None |} _ _ _)).
  - reflexivity.
  - reflexivity.
Defined.

(** The keys of a row of the catalog. *)
Lemma Query_row_keys_witness :
  dom (database.fill_row ["name"] 0 [VBytes "products"] ∅) = list_to_set ["name"].
Proof.
  refine (Query_row_keys (drv:=testenv.names_driver) "SELECT name FROM sqlite_master" []
            (testenv.a_store testenv.names_driver tt)
            {| Columns := (["name"], None);
               scans := [([VBytes "products"], None); ([VString "users"], None)];
               rows_Err := None |}
            ((λ cell, database.fill_row ["name"] 0 [cell] ∅)
               <$> [VBytes "products"; VString "users"])
            _ _ _ _).
  - reflexivity.
  - reflexivity.
  - apply list_elem_of_here.
Defined.

(** A table name that the driver delivers as bytes. *)
Lemma Query_no_bytes_witness :
  database.fill_row ["name"] 0 [VBytes "products"] ∅ !! "name" ≠ Some (VBytes "products").
Proof.
  refine (Query_no_bytes (drv:=testenv.names_driver) "SELECT name FROM t" []
            (testenv.a_store testenv.names_driver tt)
            ((λ cell, database.fill_row ["name"] 0 [cell] ∅)
               <$> [VBytes "products"; VString "users"])
            _ "name" "products" _ _).
  - reflexivity.
  - apply list_elem_of_here.
Defined.

Lemma Query_cell_witness :
  ∃ row,
    ((λ cell, database.fill_row ["name"] 0 [cell] ∅) <$> [VBytes "products"; VString "users"])
      !! 0%nat = Some row
    ∧ row !! "name" = Some (VString "products").
Proof.
  refine (Query_cell (drv:=testenv.names_driver) "SELECT name FROM t" []
            (testenv.a_store testenv.names_driver tt)
            {| Columns := (["name"], None);
               scans := [([VBytes "products"], None); ([VString "users"], None)];
               rows_Err := None |}
            _ 0 0 [VBytes "products"] None "name" (VBytes "products") _ _ _ _ _ _).
  - reflexivity.
  - reflexivity.
  - simpl. apply NoDup_cons. split; [apply not_elem_of_nil | apply NoDup_nil_2].
  - reflexivity.
  - reflexivity.
  - reflexivity.
Defined.

Lemma GetTables_names_witness :
  (database.GetTables (drv:=testenv.names_driver)
     (testenv.a_store testenv.names_driver tt)).1 = (["products"; "users"], None).
Proof.
  refine (GetTables_names (drv:=testenv.names_driver) (testenv.a_store testenv.names_driver tt)
            {| Columns := (["name"], None);
               scans := [([VBytes "products"], None); ([VString "users"], None)];
               rows_Err := None |}
            [VBytes "products"; VString "users"] ["products"; "users"] _ _ _ _ _).
  - reflexivity.
  - reflexivity.
  - reflexivity.
  - reflexivity.
  - constructor; [right; reflexivity|]. constructor; [left; reflexivity|]. constructor.
Defined.

(** [execute_query] as a read-only server holds it. *)
Lemma read_only_tools_never_exec_witness :
  database.st_calls
    (tools.HandleTool (lib:=testutil.ascii_lib) (drv:=testutil.test_driver)
       testutil.select_as_query testutil.CreateTestDB).2 =
    database.st_calls testutil.CreateTestDB
  ∨ ∃ query args,
      database.st_calls
        (tools.HandleTool (lib:=testutil.ascii_lib) (drv:=testutil.test_driver)
           testutil.select_as_query testutil.CreateTestDB).2 =
        database.st_calls testutil.CreateTestDB ++ [database.CallQuery query args].
Proof.
  apply (read_only_tools_never_exec (lib:=testutil.ascii_lib) (drv:=testutil.test_driver)
           "execute_query"
           {| server.Tool := tools.executeQueryTool;
              server.Handler :=
                tools.HandleTool (lib:=testutil.ascii_lib) (drv:=testutil.test_driver) |}
           testutil.select_as_query testutil.CreateTestDB).
  - apply registered_execute_query.
  - reflexivity.
Defined.

Lemma execute_query_verbatim_witness :
  database.st_calls
    (tools.handleExecuteQuery (lib:=testutil.ascii_lib) (drv:=testutil.test_driver)
       testenv.spaced_query testutil.CreateTestDB).2 =
    [database.CallQuery "  select * FROM users ORDER BY id" []].
Proof.
  refine (execute_query_verbatim (lib:=testutil.ascii_lib) (drv:=testutil.test_driver)
            testenv.spaced_query testutil.CreateTestDB _ _).
  - discriminate.
  - vm_compute; reflexivity.
Defined.

Lemma execute_statement_verbatim_witness :
  database.st_calls
    (tools.handleExecuteStatement (lib:=testutil.ascii_lib) (drv:=testutil.test_driver)
       testenv.insert_statement testutil.CreateTestDB).2 =
    [database.CallExec "INSERT INTO users (name, email, age) VALUES (?, ?, ?)"
       [VString "Charlie"; VString "charlie@example.com"; VString "35"]].
Proof.
  refine (f_equal database.st_calls
            (execute_statement_verbatim (lib:=testutil.ascii_lib) (drv:=testutil.test_driver)
               testenv.insert_statement testutil.CreateTestDB _ _)).
  - discriminate.
  - vm_compute; reflexivity.
Defined.

Lemma no_tables_witness :
  (tools.handleListTables (lib:=testutil.ascii_lib) (drv:=testenv.empty_driver)
     (testutil.request "list_tables" []) (testenv.a_store testenv.empty_driver tt)).1 =
    (Some {| mcp.Content_of := [mcp.TextContent "No tables found in the database"];
             mcp.IsError := false |}, None).
Proof.
  refine (proj1 (no_tables (lib:=testutil.ascii_lib) (drv:=testenv.empty_driver)
                   (testutil.request "list_tables" [])
                   (testenv.a_store testenv.empty_driver tt) _)).
  vm_compute; reflexivity.
Defined.

(** The test "missing table name". *)
Lemma required_arguments_enforced_witness :
  tools.HandleTool (lib:=testutil.ascii_lib) (drv:=testutil.test_driver)
    (testutil.request "describe_table" []) testutil.CreateTestDB =
    ((Some (mcp.NewToolResultError "table_name parameter is required"), None),
     testutil.CreateTestDB).
Proof.
  refine (required_arguments_enforced (lib:=testutil.ascii_lib) (drv:=testutil.test_driver)
            tools.describeTableTool
            {| mcp.prop_name := "table_name"; mcp.prop_type := "string";
               mcp.prop_required := true;
               mcp.prop_description := "The name of the table to describe" |}
            (testutil.request "describe_table" []) testutil.CreateTestDB _ _ _ _ _).
  - unfold tools.GetTools. repeat first [apply list_elem_of_here | apply list_elem_of_further].
  - apply list_elem_of_here.
  - reflexivity.
  - reflexivity.
  - vm_compute; reflexivity.
Defined.

(** The database file of the test suite behind a read-only server. *)
Lemma initializeDatabase_mode_witness :
  "file:/tmp/test.db?mode=ro&_journal_mode=off&_temp_store=memory&_synchronous=off&_cache_size=-64000&_mmap_size=0" =
  "file:" +:+ "/tmp/test.db" +:+ "?mode=ro" +:+
  "&_journal_mode=off&_temp_store=memory&_synchronous=off&_cache_size=-64000&_mmap_size=0".
Proof.
  refine (initializeDatabase_mode (drv:=testutil.test_driver) (fs:=testutil.test_fs)
            "/tmp/test.db" false "sqlite" _ _ _).
  - discriminate.
  - vm_compute. repeat first [apply list_elem_of_here | apply list_elem_of_further].
Defined.

Lemma logged_tools_are_registered_witness :
  ∃ line,
    main.logServerStart ":8080" "/tmp/test.db" false "sse" !! 2%nat = Some line
    ∧ strings.HasPrefix line "Available tools: " = true
    ∧ (strings.Contains line "execute_statement" = true
       ↔ "execute_statement" ∈
           dom (server.srv_tools
                  (server.registerToolsAndResources (lib:=testutil.ascii_lib)
                     (drv:=testutil.test_driver) server.createMCPServer false).1)).
Proof.
  refine (logged_tools_are_registered (lib:=testutil.ascii_lib) (drv:=testutil.test_driver)
            ":8080" "/tmp/test.db" false "sse" tools.executeStatementTool _).
  unfold tools.GetTools. repeat first [apply list_elem_of_here | apply list_elem_of_further].
Defined.

(** MCP_TRANSPORT set to [ SSE ] with blanks around it. *)
Lemma default_transport_accepted_witness :
  main.runServer_transport (proc:=testenv.test_process)
    (main.getDefaultTransport (lib:=testutil.ascii_lib) (proc:=testenv.test_process)).1 =
    (inl main.SSEServer, ["Using SSE transport"]).
Proof.
  destruct (default_transport_accepted (lib:=testutil.ascii_lib) (proc:=testenv.test_process)
              eq_refl eq_refl) as [[_ Hrun]|[Hdef _]].
  - exact Hrun.
  - discriminate Hdef.
Defined.
